(** * ul-temp-sensor: duty-cycle scheduling and sensor compensation

    A shallow embedding of the firmware's decision and transformation code
    (adaptive_scheduler.c, rv3028.c, bme280.c) and the properties of it that
    the design document states.

    Conventions.
    - C integers are [Z] values kept in the range of their C type; every
      conversion and every arithmetic result is wrapped explicitly
      ([u8], [u16], [u32], [s8], [s16], [s32]).  Signed 32-bit arithmetic wraps
      as on the two's complement target.
    - Right shift of a signed value is the arithmetic shift ([Z.shiftr]).
    - The I2C bus is the only environment.  A run of the firmware consumes a
      script of bus responses, one per transfer, and logs every transfer it
      issues.
    - Functions that return a C status code return it as a [Z]; 0 is success. *)

From Stdlib Require Import ZArith List Bool Lia QArith.
From Stdlib Require String Ascii.
Import ListNotations.
Local Open Scope Z_scope.

(** ** Fixed-width integers *)

Module Int.

Definition u8 (x : Z) : Z := x mod 256.
Definition u16 (x : Z) : Z := x mod 65536.
Definition u32 (x : Z) : Z := x mod 4294967296.
Definition s8 (x : Z) : Z := (x + 128) mod 256 - 128.
Definition s16 (x : Z) : Z := (x + 32768) mod 65536 - 32768.
Definition s32 (x : Z) : Z := (x + 2147483648) mod 4294967296 - 2147483648.

(** [int32_t] operators. *)
Definition add32 (a b : Z) : Z := s32 (a + b).
Definition sub32 (a b : Z) : Z := s32 (a - b).
Definition mul32 (a b : Z) : Z := s32 (a * b).
Definition shl32 (a n : Z) : Z := s32 (Z.shiftl a n).
Definition asr32 (a n : Z) : Z := Z.shiftr a n.

(** [uint32_t] operators.  Division by zero has no defined result in C:
    [udiv32] has none either. *)
Definition usub32 (a b : Z) : Z := u32 (a - b).
Definition umul32 (a b : Z) : Z := u32 (a * b).
Definition udiv32 (a b : Z) : option Z :=
  if b =? 0 then None else Some (a / b).

End Int.
Import Int.

(** ** adaptive_scheduler.h *)

Inductive power_tier_t : Type :=
  | POWER_TIER_NORMAL
  | POWER_TIER_CONSERVE
  | POWER_TIER_RESERVE
  | POWER_TIER_SURVIVAL.

(** The enumerator values; the C code compares tiers with [>] and [!=] on
    these. *)
Definition tier_ord (t : power_tier_t) : Z :=
  match t with
  | POWER_TIER_NORMAL => 0
  | POWER_TIER_CONSERVE => 1
  | POWER_TIER_RESERVE => 2
  | POWER_TIER_SURVIVAL => 3
  end.

Definition tier_eqb (a b : power_tier_t) : bool := tier_ord a =? tier_ord b.
Definition tier_gtb (a b : power_tier_t) : bool := tier_ord a >? tier_ord b.

Definition WAKE_INTERVAL_NORMAL : Z := 5 * 60 * 1000.
Definition WAKE_INTERVAL_CONSERVE : Z := 15 * 60 * 1000.
Definition WAKE_INTERVAL_RESERVE : Z := 30 * 60 * 1000.
Definition WAKE_INTERVAL_SURVIVAL : Z := 60 * 60 * 1000.

Definition BATTERY_THRESHOLD_NORMAL_HIGH : Z := 3800.
Definition BATTERY_THRESHOLD_NORMAL_LOW : Z := 3600.
Definition BATTERY_THRESHOLD_CONSERVE_HIGH : Z := 3600.
Definition BATTERY_THRESHOLD_CONSERVE_LOW : Z := 3400.
Definition BATTERY_THRESHOLD_RESERVE_HIGH : Z := 3400.
Definition BATTERY_THRESHOLD_RESERVE_LOW : Z := 3200.

(** ** adaptive_scheduler.c: the tier controller *)

(** The file-scope variable [current_tier]; it starts as
    [POWER_TIER_NORMAL]. *)
Record sched_state : Type := mkSched { current_tier : power_tier_t }.

Definition sched_init : sched_state := mkSched POWER_TIER_NORMAL.

(** First [if] chain of [adaptive_scheduler_get_tier]: the tier on the
    absolute ladder. *)
Definition ladder_tier (battery_mv : Z) : power_tier_t :=
  if battery_mv >=? BATTERY_THRESHOLD_NORMAL_HIGH then POWER_TIER_NORMAL
  else if battery_mv >=? BATTERY_THRESHOLD_CONSERVE_HIGH then POWER_TIER_CONSERVE
  else if battery_mv >=? BATTERY_THRESHOLD_RESERVE_HIGH then POWER_TIER_RESERVE
  else POWER_TIER_SURVIVAL.

(** Second part: the hysteresis on [new_tier] against [current_tier]. *)
Definition apply_hysteresis (battery_mv : Z) (cur new_tier : power_tier_t)
  : power_tier_t :=
  if negb (tier_eqb new_tier cur) then
    if tier_gtb new_tier cur then
      if (battery_mv <=? BATTERY_THRESHOLD_NORMAL_LOW)
           && tier_eqb cur POWER_TIER_NORMAL
      then POWER_TIER_CONSERVE
      else if (battery_mv <=? BATTERY_THRESHOLD_CONSERVE_LOW)
                && tier_eqb cur POWER_TIER_CONSERVE
      then POWER_TIER_RESERVE
      else if (battery_mv <=? BATTERY_THRESHOLD_RESERVE_LOW)
                && tier_eqb cur POWER_TIER_RESERVE
      then POWER_TIER_SURVIVAL
      else cur
    else
      if (battery_mv >=? BATTERY_THRESHOLD_NORMAL_HIGH)
           && tier_eqb cur POWER_TIER_CONSERVE
      then POWER_TIER_NORMAL
      else if (battery_mv >=? BATTERY_THRESHOLD_CONSERVE_HIGH)
                && tier_eqb cur POWER_TIER_RESERVE
      then POWER_TIER_CONSERVE
      else if (battery_mv >=? BATTERY_THRESHOLD_RESERVE_HIGH)
                && tier_eqb cur POWER_TIER_SURVIVAL
      then POWER_TIER_RESERVE
      else cur
  else new_tier.

(** [power_tier_t adaptive_scheduler_get_tier(uint16_t battery_mv)]: reads
    and updates [current_tier], returns the updated [current_tier]. *)
Definition adaptive_scheduler_get_tier (battery_mv : Z) (st : sched_state)
  : power_tier_t * sched_state :=
  let new_tier := ladder_tier battery_mv in
  let new_tier := apply_hysteresis battery_mv (current_tier st) new_tier in
  let st' :=
    if negb (tier_eqb new_tier (current_tier st))
    then mkSched new_tier
    else st in
  (current_tier st', st').

Definition adaptive_scheduler_get_interval (tier : power_tier_t) : Z :=
  match tier with
  | POWER_TIER_NORMAL => WAKE_INTERVAL_NORMAL
  | POWER_TIER_CONSERVE => WAKE_INTERVAL_CONSERVE
  | POWER_TIER_RESERVE => WAKE_INTERVAL_RESERVE
  | POWER_TIER_SURVIVAL => WAKE_INTERVAL_SURVIVAL
  end.

(** The duty cycle's use of the controller: one call per battery reading,
    the state threaded from call to call; the list of returned tiers. *)
Fixpoint run_readings (readings : list Z) (st : sched_state)
  : list power_tier_t :=
  match readings with
  | [] => []
  | mv :: rest =>
      let '(t, st') := adaptive_scheduler_get_tier mv st in
      t :: run_readings rest st'
  end.

(** ** The I2C bus *)

(** A transfer as the firmware issues it: [i2c_write(dev, buf, n, addr)] and
    [i2c_write_read(dev, addr, wr, n_wr, rd, n_rd)]. *)
Inductive bus_op : Type :=
  | I2cWrite (addr : Z) (buf : list Z)
  | I2cWriteRead (addr : Z) (wr : list Z) (num_read : nat).

(** What a transfer gives back: the status code (0 on success) and, for a
    read, the bytes placed in the read buffer. *)
Record bus_resp : Type := mkResp { resp_ret : Z; resp_data : list Z }.

(** The environment: [respond k] is the response to the [k]-th transfer since
    power-up, [log] the transfers issued so far, oldest first. *)
Record world : Type := mkWorld { respond : nat -> bus_resp; log : list bus_op }.

(** The response to the [k]-th transfer counted from now. *)
Definition upcoming (w : world) (k : nat) : bus_resp :=
  respond w (length (log w) + k)%nat.

Definition issue (op : bus_op) (w : world) : world :=
  mkWorld (respond w) (log w ++ [op]).

(** The bytes of a read buffer are [uint8_t]. *)
Definition byte_at (data : list Z) (i : nat) : Z := u8 (nth i data 0).

(** Bus code: a state transformer on [world]. *)
Definition M (A : Type) : Type := world -> A * world.

Definition ret {A : Type} (a : A) : M A := fun w => (a, w).

Definition bind {A B : Type} (m : M A) (f : A -> M B) : M B :=
  fun w => let '(a, w') := m w in f a w'.

Declare Scope bus_scope.
Delimit Scope bus_scope with bus.
Notation "x <- m ;; k" := (bind m (fun x => k))
  (at level 61, m at next level, right associativity) : bus_scope.
Notation "' pat <- m ;; k" := (bind m (fun x => match x with pat => k end))
  (at level 61, pat pattern, m at next level, right associativity) : bus_scope.
Local Open Scope bus_scope.

Definition i2c_write (addr : Z) (buf : list Z) : M Z :=
  fun w => (resp_ret (upcoming w 0), issue (I2cWrite addr buf) w).

Definition i2c_write_read (addr : Z) (wr : list Z) (num_read : nat)
  : M (Z * list Z) :=
  fun w =>
    let r := upcoming w 0 in
    ((resp_ret r, resp_data r), issue (I2cWriteRead addr wr num_read) w).

(** A call that either fills its out-parameter and returns 0, or returns a
    non-zero status and leaves it alone. *)
Inductive result (A : Type) : Type :=
  | Ok (a : A)
  | Err (code : Z).
Arguments Ok {A} a.
Arguments Err {A} code.

(** [errno] value of the platform headers. *)
Definition EIO : Z := 5.

(** ** rv3028.h *)

Definition RV3028_I2C_ADDR : Z := 0x52.
Definition RV3028_REG_SECONDS : Z := 0x00.
Definition RV3028_REG_CONTROL2 : Z := 0x10.
Definition RV3028_CTRL2_AF : Z := 0x40.
Definition RV3028_CTRL2_AIE : Z := 0x08.

Record rv3028_time : Type := mkTime {
  tm_seconds : Z; tm_minutes : Z; tm_hours : Z; tm_weekday : Z;
  tm_date : Z; tm_month : Z; tm_year : Z }.

Record rv3028_alarm : Type := mkAlarm {
  al_seconds : Z; al_minutes : Z; al_hours : Z; al_weekday : Z;
  al_date : Z }.

(** ** rv3028.c *)

Definition bcd_to_bin (bcd : Z) : Z :=
  u8 (Z.shiftr bcd 4 * 10 + Z.land bcd 0x0F).

Definition bin_to_bcd (bin : Z) : Z :=
  u8 (Z.lor (Z.shiftl (bin / 10) 4) (bin mod 10)).

Definition rv3028_read_reg (reg : Z) (len : nat) : M (Z * list Z) :=
  i2c_write_read RV3028_I2C_ADDR [reg] len.

Definition rv3028_write_reg (reg data : Z) : M Z :=
  i2c_write RV3028_I2C_ADDR [reg; data].

Definition rv3028_read_reg8 (reg : Z) : M Z :=
  '(rc, data) <- rv3028_read_reg reg 1 ;;
  if negb (rc =? 0) then ret 0 else ret (byte_at data 0).

(** The decoding [rv3028_get_time] applies to the seven bytes it read. *)
Definition time_of_regs (data : list Z) : rv3028_time :=
  {| tm_seconds := bcd_to_bin (Z.land (byte_at data 0) 0x7F);
     tm_minutes := bcd_to_bin (Z.land (byte_at data 1) 0x7F);
     tm_hours := bcd_to_bin (Z.land (byte_at data 2) 0x3F);
     tm_weekday := Z.land (byte_at data 3) 0x07;
     tm_date := bcd_to_bin (Z.land (byte_at data 4) 0x3F);
     tm_month := bcd_to_bin (Z.land (byte_at data 5) 0x1F);
     tm_year := u16 (2000 + bcd_to_bin (byte_at data 6)) |}.

Definition rv3028_get_time : M (result rv3028_time) :=
  '(rc, data) <- rv3028_read_reg RV3028_REG_SECONDS 7 ;;
  if negb (rc =? 0) then ret (Err rc)
  else ret (Ok (time_of_regs data)).

(** The five bytes [rv3028_set_alarm] puts on the bus for an alarm. *)
Definition alarm_bytes (alarm : rv3028_alarm) : list Z :=
  [ bin_to_bcd (al_seconds alarm);
    bin_to_bcd (al_minutes alarm);
    bin_to_bcd (al_hours alarm);
    al_weekday alarm;
    bin_to_bcd (al_date alarm) ].

Definition rv3028_set_alarm (alarm : rv3028_alarm) : M Z :=
  rc <- i2c_write RV3028_I2C_ADDR (alarm_bytes alarm) ;;
  if negb (rc =? 0) then ret rc else ret 0.

Definition rv3028_clear_alarm : M Z :=
  ctrl2 <- rv3028_read_reg8 RV3028_REG_CONTROL2 ;;
  let ctrl2 := u8 (Z.land ctrl2 (Z.lnot RV3028_CTRL2_AF)) in
  rv3028_write_reg RV3028_REG_CONTROL2 ctrl2.

Definition rv3028_enable_alarm_interrupt : M Z :=
  ctrl2 <- rv3028_read_reg8 RV3028_REG_CONTROL2 ;;
  let ctrl2 := u8 (Z.lor ctrl2 RV3028_CTRL2_AIE) in
  rv3028_write_reg RV3028_REG_CONTROL2 ctrl2.

(** The arithmetic of [rv3028_set_wakeup_time] between the clock read and the
    alarm write.  [target_seconds] is a [uint32_t]; the alarm fields are
    [uint8_t]. *)
Definition wakeup_target (t : rv3028_time) (seconds_from_now : Z) : Z :=
  u32 (tm_hours t * 3600 + tm_minutes t * 60 + tm_seconds t
       + seconds_from_now).

Definition wakeup_alarm (t : rv3028_time) (seconds_from_now : Z)
  : rv3028_alarm :=
  let target_seconds := wakeup_target t seconds_from_now in
  {| al_hours := u8 ((target_seconds / 3600) mod 24);
     al_minutes := u8 ((target_seconds / 60) mod 60);
     al_seconds := u8 (target_seconds mod 60);
     al_weekday := tm_weekday t;
     al_date := tm_date t |}.

Definition rv3028_set_wakeup_time (seconds_from_now : Z) : M Z :=
  r <- rv3028_get_time ;;
  match r with
  | Err rc => ret rc
  | Ok current_time =>
      let alarm := wakeup_alarm current_time seconds_from_now in
      rc <- rv3028_set_alarm alarm ;;
      if negb (rc =? 0) then ret rc
      else rv3028_enable_alarm_interrupt
  end.

(** ** adaptive_scheduler.c: programming the next wake *)

(** [int adaptive_scheduler_set_next_wake(uint32_t interval_ms)].  The status
    of [rv3028_clear_alarm] is dropped by the caller. *)
Definition adaptive_scheduler_set_next_wake (interval_ms : Z) : M Z :=
  _ <- rv3028_clear_alarm ;;
  rc <- rv3028_set_wakeup_time (interval_ms / 1000) ;;
  if negb (rc =? 0) then ret rc else ret 0.

(** ** bme280.h *)

Definition BME280_I2C_ADDR : Z := 0x76.
Definition BME280_REG_PRESS_MSB : Z := 0xF7.
Definition BME280_REG_CTRL_MEAS : Z := 0xF4.
Definition BME280_REG_DIG_T1 : Z := 0x88.
Definition BME280_REG_DIG_T2 : Z := 0x8A.
Definition BME280_REG_DIG_T3 : Z := 0x8C.
Definition BME280_REG_DIG_P1 : Z := 0x8E.
Definition BME280_REG_DIG_P2 : Z := 0x90.
Definition BME280_REG_DIG_P3 : Z := 0x92.
Definition BME280_REG_DIG_P4 : Z := 0x94.
Definition BME280_REG_DIG_P5 : Z := 0x96.
Definition BME280_REG_DIG_P6 : Z := 0x98.
Definition BME280_REG_DIG_P7 : Z := 0x9A.
Definition BME280_REG_DIG_P8 : Z := 0x9C.
Definition BME280_REG_DIG_P9 : Z := 0x9E.
Definition BME280_REG_DIG_H1 : Z := 0xA1.
Definition BME280_REG_DIG_H2 : Z := 0xE1.
Definition BME280_REG_DIG_H3 : Z := 0xE3.
Definition BME280_REG_DIG_H4 : Z := 0xE4.
Definition BME280_REG_DIG_H5 : Z := 0xE5.
Definition BME280_REG_DIG_H6 : Z := 0xE7.
Definition BME280_CTRL_MEAS_OSRS_T_1X : Z := 0x20.
Definition BME280_CTRL_MEAS_OSRS_P_1X : Z := 0x04.
Definition BME280_CTRL_MEAS_MODE_FORCED : Z := 0x01.

(** [struct bme280_data].  The C fields are [float]s, each the quotient of an
    integer by a constant; the record keeps the integer numerators:
    temperature = [temperature_x100 / 100.0f],
    pressure = [pressure_x256 / 256.0f],
    humidity = [humidity_x1024 / 1024.0f]. *)
Record bme280_data : Type := mkData {
  temperature_x100 : Z;
  pressure_x256 : Z;
  humidity_x1024 : Z }.

(** The humidity field as a number.  Its numerator is below 2^24 and the
    divisor is a power of two, so the single precision quotient is this
    rational exactly. *)
Definition humidity (d : bme280_data) : Q := (humidity_x1024 d # 1024)%Q.

Record bme280_calib_data : Type := mkCalib {
  dig_T1 : Z; dig_T2 : Z; dig_T3 : Z;
  dig_P1 : Z; dig_P2 : Z; dig_P3 : Z; dig_P4 : Z; dig_P5 : Z;
  dig_P6 : Z; dig_P7 : Z; dig_P8 : Z; dig_P9 : Z;
  dig_H1 : Z; dig_H2 : Z; dig_H3 : Z; dig_H4 : Z; dig_H5 : Z; dig_H6 : Z }.

(** ** bme280.c: register access and calibration load *)

Definition bme280_read_reg (reg : Z) (len : nat) : M (Z * list Z) :=
  i2c_write_read BME280_I2C_ADDR [reg] len.

Definition bme280_write_reg (reg data : Z) : M Z :=
  i2c_write BME280_I2C_ADDR [reg; data].

Definition bme280_read_reg8 (reg : Z) : M Z :=
  '(rc, data) <- bme280_read_reg reg 1 ;;
  if negb (rc =? 0) then ret 0 else ret (byte_at data 0).

(** [data[0]] is the byte of register [reg], [data[1]] that of [reg + 1]. *)
Definition bme280_read_reg16 (reg : Z) : M Z :=
  '(rc, data) <- bme280_read_reg reg 2 ;;
  if negb (rc =? 0) then ret 0
  else ret (u16 (Z.lor (Z.shiftl (byte_at data 0) 8) (byte_at data 1))).

Definition bme280_read_reg16_signed (reg : Z) : M Z :=
  v <- bme280_read_reg16 reg ;; ret (s16 v).

(** The two humidity words packed over three registers, as the load
    assembles them from the bytes it names [msb] and [lsb]. *)
Definition h4_of (h4_msb h4_lsb : Z) : Z :=
  s16 (Z.lor (Z.shiftl h4_msb 4) (Z.land h4_lsb 0x0F)).

Definition h5_of (h5_msb h5_lsb : Z) : Z :=
  s16 (Z.lor (Z.shiftl h5_msb 4) (Z.land (Z.shiftr h5_lsb 4) 0x0F)).

(** [int bme280_read_calibration_data(void)] fills the file-scope
    [calib_data]; the filled record is returned next to the status. *)
Definition bme280_read_calibration_data : M (Z * bme280_calib_data) :=
  t1 <- bme280_read_reg16 BME280_REG_DIG_T1 ;;
  t2 <- bme280_read_reg16_signed BME280_REG_DIG_T2 ;;
  t3 <- bme280_read_reg16_signed BME280_REG_DIG_T3 ;;
  p1 <- bme280_read_reg16 BME280_REG_DIG_P1 ;;
  p2 <- bme280_read_reg16_signed BME280_REG_DIG_P2 ;;
  p3 <- bme280_read_reg16_signed BME280_REG_DIG_P3 ;;
  p4 <- bme280_read_reg16_signed BME280_REG_DIG_P4 ;;
  p5 <- bme280_read_reg16_signed BME280_REG_DIG_P5 ;;
  p6 <- bme280_read_reg16_signed BME280_REG_DIG_P6 ;;
  p7 <- bme280_read_reg16_signed BME280_REG_DIG_P7 ;;
  p8 <- bme280_read_reg16_signed BME280_REG_DIG_P8 ;;
  p9 <- bme280_read_reg16_signed BME280_REG_DIG_P9 ;;
  h1 <- bme280_read_reg8 BME280_REG_DIG_H1 ;;
  h2 <- bme280_read_reg16_signed BME280_REG_DIG_H2 ;;
  h3 <- bme280_read_reg8 BME280_REG_DIG_H3 ;;
  h4_msb <- bme280_read_reg8 BME280_REG_DIG_H4 ;;
  h4_lsb <- bme280_read_reg8 (BME280_REG_DIG_H4 + 1) ;;
  let h4 := h4_of h4_msb h4_lsb in
  h5_msb <- bme280_read_reg8 (BME280_REG_DIG_H5 + 1) ;;
  h5_lsb <- bme280_read_reg8 BME280_REG_DIG_H5 ;;
  let h5 := h5_of h5_msb h5_lsb in
  h6 <- bme280_read_reg8 BME280_REG_DIG_H6 ;;
  ret (0, {| dig_T1 := t1; dig_T2 := t2; dig_T3 := t3;
             dig_P1 := p1; dig_P2 := p2; dig_P3 := p3; dig_P4 := p4;
             dig_P5 := p5; dig_P6 := p6; dig_P7 := p7; dig_P8 := p8;
             dig_P9 := p9;
             dig_H1 := h1; dig_H2 := h2; dig_H3 := h3; dig_H4 := h4;
             dig_H5 := h5; dig_H6 := s8 h6 |}).

(** ** bme280.c: the forced measurement *)

(** How a call of [bme280_read_forced] can end: [*data] filled and 0
    returned, a non-zero status returned, or an unsigned division by zero
    executed. *)
Inductive outcome : Type :=
  | Done (d : bme280_data)
  | Fail (rc : Z)
  | DivByZero.

Definition adc_P_of (raw_data : list Z) : Z :=
  Z.lor (Z.lor (shl32 (byte_at raw_data 0) 12) (shl32 (byte_at raw_data 1) 4))
        (asr32 (byte_at raw_data 2) 4).

Definition adc_T_of (raw_data : list Z) : Z :=
  Z.lor (Z.lor (shl32 (byte_at raw_data 3) 12) (shl32 (byte_at raw_data 4) 4))
        (asr32 (byte_at raw_data 5) 4).

Definition adc_H_of (raw_data : list Z) : Z :=
  Z.lor (shl32 (byte_at raw_data 6) 8) (byte_at raw_data 7).

(** Temperature compensation: [t_fine]. *)
Definition t_fine_of (c : bme280_calib_data) (adc_T : Z) : Z :=
  let var1 :=
    asr32 (mul32 (sub32 (asr32 adc_T 3) (shl32 (dig_T1 c) 1)) (dig_T2 c)) 11 in
  let var2 :=
    asr32 (mul32 (asr32 (mul32 (sub32 (asr32 adc_T 4) (dig_T1 c))
                               (sub32 (asr32 adc_T 4) (dig_T1 c))) 12)
                 (dig_T3 c)) 14 in
  add32 var1 var2.

Definition temperature_of (t_fine : Z) : Z :=
  asr32 (add32 (mul32 t_fine 5) 128) 8.

(** Pressure compensation up to the test [if (var1 == 0)]: the values of
    [var1] and [var2] at that test. *)
Definition press_var2_of (c : bme280_calib_data) (t_fine : Z) : Z :=
  let var1 := sub32 (asr32 t_fine 1) 64000 in
  let var2 :=
    mul32 (asr32 (mul32 (asr32 var1 2) (asr32 var1 2)) 11) (dig_P6 c) in
  let var2 := add32 var2 (shl32 (mul32 var1 (dig_P5 c)) 1) in
  add32 (asr32 var2 2) (shl32 (dig_P4 c) 16).

Definition press_var1_of (c : bme280_calib_data) (t_fine : Z) : Z :=
  let var1 := sub32 (asr32 t_fine 1) 64000 in
  let var1 :=
    asr32 (add32 (asr32 (mul32 (dig_P3 c)
                               (asr32 (mul32 (asr32 var1 2) (asr32 var1 2)) 13))
                        3)
                 (asr32 (mul32 (dig_P2 c) var1) 1))
          18 in
  asr32 (mul32 (add32 32768 var1) (dig_P1 c)) 15.

(** Pressure compensation after that test.  [p] is declared [int32_t]; the
    comparison with [0x80000000] and both divisions are done in
    [uint32_t].  [None] when a division has a zero divisor. *)
Definition press_after_guard (c : bme280_calib_data) (adc_P var1 var2 : Z)
  : option Z :=
  let p :=
    s32 (umul32 (usub32 (u32 (sub32 1048576 adc_P)) (asr32 var2 12)) 3125) in
  let quotient :=
    if u32 p <? 0x80000000 then
      match udiv32 (u32 (shl32 p 1)) (u32 var1) with
      | Some q => Some (s32 q)
      | None => None
      end
    else
      match udiv32 (u32 p) (u32 var1) with
      | Some q => Some (s32 (umul32 q 2))
      | None => None
      end in
  match quotient with
  | None => None
  | Some p =>
      let var1 :=
        asr32 (mul32 (dig_P9 c)
                     (s32 (asr32 (mul32 (asr32 p 3) (asr32 p 3)) 13))) 12 in
      let var2 := asr32 (mul32 (s32 (asr32 p 2)) (dig_P8 c)) 13 in
      Some (s32 (u32 (add32 p (asr32 (add32 (add32 var1 var2) (dig_P7 c)) 4))))
  end.

(** Humidity compensation: [var1] before the two clamps, and [h]. *)
Definition hum_var1_of (c : bme280_calib_data) (t_fine adc_H : Z) : Z :=
  let var1 := sub32 t_fine 76800 in
  let x :=
    mul32 (asr32 (mul32 var1 (dig_H6 c)) 10)
          (add32 (asr32 (mul32 var1 (dig_H3 c)) 11) 32768) in
  let var2 :=
    mul32
      (asr32 (add32 (sub32 (sub32 (shl32 adc_H 14) (shl32 (dig_H4 c) 20))
                           (mul32 (dig_H5 c) var1))
                    16384) 15)
      (asr32 (add32 (mul32 (add32 (asr32 x 10) 2097152) (dig_H2 c)) 8192) 14) in
  sub32 var1 (asr32 (mul32 var2 x) 10).

Definition hum_clamp (var1 : Z) : Z :=
  let var1 := if var1 <? 0 then 0 else var1 in
  if var1 >? 419430400 then 419430400 else var1.

Definition humidity_of (c : bme280_calib_data) (t_fine adc_H : Z) : Z :=
  s32 (u32 (asr32 (hum_clamp (hum_var1_of c t_fine adc_H)) 12)).

(** The computation of [bme280_read_forced] on the eight bytes read. *)
Definition compensate (c : bme280_calib_data) (raw_data : list Z) : outcome :=
  let adc_P := adc_P_of raw_data in
  let adc_T := adc_T_of raw_data in
  let adc_H := adc_H_of raw_data in
  let t_fine := t_fine_of c adc_T in
  let var2 := press_var2_of c t_fine in
  let var1 := press_var1_of c t_fine in
  if var1 =? 0 then Fail (- EIO)
  else
    match press_after_guard c adc_P var1 var2 with
    | None => DivByZero
    | Some p =>
        Done {| temperature_x100 := temperature_of t_fine;
                pressure_x256 := p;
                humidity_x1024 := humidity_of c t_fine adc_H |}
    end.

(** [int bme280_read_forced(struct bme280_data *data)], with the file-scope
    [calib_data] as [c].  The 10 ms sleep between the two transfers does not
    touch the bus. *)
Definition bme280_read_forced (c : bme280_calib_data) : M outcome :=
  let ctrl_meas :=
    Z.lor (Z.lor BME280_CTRL_MEAS_OSRS_T_1X BME280_CTRL_MEAS_OSRS_P_1X)
          BME280_CTRL_MEAS_MODE_FORCED in
  rc <- bme280_write_reg BME280_REG_CTRL_MEAS ctrl_meas ;;
  if negb (rc =? 0) then ret (Fail (- EIO))
  else
    '(rc, raw_data) <- bme280_read_reg BME280_REG_PRESS_MSB 8 ;;
    if negb (rc =? 0) then ret (Fail (- EIO))
    else ret (compensate c raw_data).

(** ** rv3028.c: bring-up, setting the time, the alarm interrupt *)

Definition ENODEV : Z := 19.
Definition ENOMEM : Z := 12.

Definition RV3028_REG_STATUS : Z := 0x0E.
Definition RV3028_REG_CONTROL1 : Z := 0x0F.
Definition RV3028_STATUS_VLF : Z := 0x80.
Definition RV3028_CTRL1_12_24 : Z := 0x10.
Definition RV3028_CTRL1_CLKINT : Z := 0x01.
Definition RV3028_CTRL2_TF : Z := 0x20.
Definition RV3028_CTRL2_UF : Z := 0x10.
Definition RV3028_CTRL2_STOP : Z := 0x01.

(** [int rv3028_init(void)].  [ready] is what [device_is_ready(i2c_dev)]
    answers.  The statuses of the two writes are not looked at. *)
Definition rv3028_init (ready : bool) : M Z :=
  if negb ready then ret (- ENODEV)
  else
    status <- rv3028_read_reg8 RV3028_REG_STATUS ;;
    ctrl1 <- rv3028_read_reg8 RV3028_REG_CONTROL1 ;;
    ctrl2 <- rv3028_read_reg8 RV3028_REG_CONTROL2 ;;
    let ctrl1 :=
      u8 (Z.lor ctrl1 (Z.lor RV3028_CTRL1_12_24 RV3028_CTRL1_CLKINT)) in
    _ <- rv3028_write_reg RV3028_REG_CONTROL1 ctrl1 ;;
    let ctrl2 :=
      u8 (Z.land ctrl2
            (Z.lnot (Z.lor (Z.lor RV3028_CTRL2_AF RV3028_CTRL2_TF)
                           RV3028_CTRL2_UF))) in
    _ <- rv3028_write_reg RV3028_REG_CONTROL2 ctrl2 ;;
    ret 0.

(** The seven bytes [rv3028_set_time] builds for a time. *)
Definition time_regs (time : rv3028_time) : list Z :=
  [ bin_to_bcd (tm_seconds time);
    bin_to_bcd (tm_minutes time);
    bin_to_bcd (tm_hours time);
    tm_weekday time;
    bin_to_bcd (tm_date time);
    bin_to_bcd (tm_month time);
    bin_to_bcd (u8 (tm_year time - 2000)) ].

(** [int rv3028_set_time(const struct rv3028_time *time)].  The time bytes
    go out as one [i2c_write] of the seven bytes alone. *)
Definition rv3028_set_time (time : rv3028_time) : M Z :=
  let data := time_regs time in
  ctrl2 <- rv3028_read_reg8 RV3028_REG_CONTROL2 ;;
  let ctrl2 := u8 (Z.lor ctrl2 RV3028_CTRL2_STOP) in
  _ <- rv3028_write_reg RV3028_REG_CONTROL2 ctrl2 ;;
  rc <- i2c_write RV3028_I2C_ADDR data ;;
  if negb (rc =? 0) then ret rc
  else
    let ctrl2 := u8 (Z.land ctrl2 (Z.lnot RV3028_CTRL2_STOP)) in
    _ <- rv3028_write_reg RV3028_REG_CONTROL2 ctrl2 ;;
    ret 0.

Definition rv3028_disable_alarm_interrupt : M Z :=
  ctrl2 <- rv3028_read_reg8 RV3028_REG_CONTROL2 ;;
  let ctrl2 := u8 (Z.land ctrl2 (Z.lnot RV3028_CTRL2_AIE)) in
  rv3028_write_reg RV3028_REG_CONTROL2 ctrl2.

(** ** adaptive_scheduler.c: bring-up *)

(** [int adaptive_scheduler_init(void)].  [gpio_ready] is what
    [device_is_ready(rtc_int_gpio)] answers and [gpio_configure_rc] what
    [gpio_pin_configure] returns. *)
Definition adaptive_scheduler_init (i2c_ready gpio_ready : bool)
    (gpio_configure_rc : Z) : M Z :=
  rc <- rv3028_init i2c_ready ;;
  if negb (rc =? 0) then ret rc
  else if negb gpio_ready then ret (- ENODEV)
  else if negb (gpio_configure_rc =? 0) then ret gpio_configure_rc
  else ret 0.

(** ** bme280.c: bring-up *)

Definition BME280_REG_CHIP_ID : Z := 0xD0.
Definition BME280_REG_CTRL_HUM : Z := 0xF2.
Definition BME280_CTRL_HUM_OSRS_H_1X : Z := 0x01.

(** [int bme280_init(void)].  [ready] is what [device_is_ready(i2c_dev)]
    answers; [calib_data] is the file-scope record before the call, and the
    record after the call is returned next to the status. *)
Definition bme280_init (ready : bool) (calib_data : bme280_calib_data)
  : M (Z * bme280_calib_data) :=
  if negb ready then ret (- ENODEV, calib_data)
  else
    chip_id <- bme280_read_reg8 BME280_REG_CHIP_ID ;;
    if negb (chip_id =? 0x60) then ret (- ENODEV, calib_data)
    else
      '(rc, calib_data) <- bme280_read_calibration_data ;;
      if negb (rc =? 0) then ret (- EIO, calib_data)
      else
        rc <- bme280_write_reg BME280_REG_CTRL_HUM BME280_CTRL_HUM_OSRS_H_1X ;;
        if negb (rc =? 0) then ret (- EIO, calib_data)
        else
          let ctrl_meas :=
            Z.lor (Z.lor BME280_CTRL_MEAS_OSRS_T_1X BME280_CTRL_MEAS_OSRS_P_1X)
                  BME280_CTRL_MEAS_MODE_FORCED in
          rc <- bme280_write_reg BME280_REG_CTRL_MEAS ctrl_meas ;;
          if negb (rc =? 0) then ret (- EIO, calib_data)
          else ret (0, calib_data).

(** ** battery_monitor.h, battery_monitor.c *)

Definition BATTERY_VOLTAGE_MAX : Z := 4200.
Definition BATTERY_VOLTAGE_MIN : Z := 3500.

(** [uint8_t battery_monitor_get_percentage(uint16_t voltage_mv)].  The
    interpolation is [int] arithmetic; C's [/] truncates ([Z.quot]). *)
Definition battery_monitor_get_percentage (voltage_mv : Z) : Z :=
  if voltage_mv >=? BATTERY_VOLTAGE_MAX then 100
  else if voltage_mv <=? BATTERY_VOLTAGE_MIN then 0
  else u8 (Z.quot ((voltage_mv - BATTERY_VOLTAGE_MIN) * 100)
                  (BATTERY_VOLTAGE_MAX - BATTERY_VOLTAGE_MIN)).

(** ** ble_advertiser.h, ble_advertiser.c *)

Definition ADV_INTERVAL_NORMAL : Z := 1000.
Definition ADV_INTERVAL_CONSERVE : Z := 5000.
Definition ADV_INTERVAL_RESERVE : Z := 10000.

(** Advertising data types and flag bits of the Bluetooth host headers. *)
Definition BT_DATA_FLAGS : Z := 0x01.
Definition BT_DATA_NAME_COMPLETE : Z := 0x09.
Definition BT_DATA_MANUFACTURER_DATA : Z := 0xFF.
Definition BT_LE_AD_GENERAL : Z := 0x02.
Definition BT_LE_AD_NO_BREDR : Z := 0x04.

Definition NORDIC_COMPANY_ID : Z := 0x0059.

(** [sizeof(struct sensor_adv_data)]: the struct is packed, its fields are
    1, 1, 2, 2, 2, 2 and 4 bytes. *)
Definition SIZEOF_SENSOR_ADV_DATA : Z := 1 + 1 + 2 + 2 + 2 + 2 + 4.

Definition get_adv_interval (tier : power_tier_t) : Z :=
  match tier with
  | POWER_TIER_NORMAL => ADV_INTERVAL_NORMAL
  | POWER_TIER_CONSERVE => ADV_INTERVAL_CONSERVE
  | POWER_TIER_RESERVE => ADV_INTERVAL_RESERVE
  | POWER_TIER_SURVIVAL => ADV_INTERVAL_RESERVE
  end.

Module AdvName.
Import String.
Definition text : string := "TempSensor".
End AdvName.

(** The characters of the local name, as bytes. *)
Definition adv_name : list Z :=
  map (fun ch => Z.of_nat (Ascii.nat_of_ascii ch))
      (String.list_ascii_of_string AdvName.text).

(** The file-scope [adv_data] (31 bytes) and [adv_data_len]. *)
Record adv_state : Type := mkAdv { adv_data : list Z; adv_data_len : Z }.

(** [buf[i] = v] for [i] inside the buffer. *)
Definition poke (buf : list Z) (i : nat) (v : Z) : list Z :=
  firstn i buf
  ++ match skipn i buf with
     | [] => []
     | _ :: rest => v :: rest
     end.

(** [memcpy(buf + i, src, length src)]. *)
Fixpoint memcpy (buf : list Z) (i : nat) (src : list Z) : list Z :=
  match src with
  | [] => buf
  | v :: rest => memcpy (poke buf i v) (S i) rest
  end.

(** [static int prepare_adv_data(...)].  [sensor_payload] stands for the
    bytes of the local [struct sensor_adv_data], which the code fills from
    the sensor values, the battery voltage, the tier and the uptime before
    the third size test; [ptr] is kept as an offset into [adv_data] and
    [remaining] is a [uint8_t]. *)
Definition prepare_adv_data (sensor_payload : list Z) (st : adv_state)
  : Z * adv_state :=
  let ptr := 0%nat in
  let remaining := 31 in
  let buf := repeat 0 31 in
  if remaining <? 3 then (- ENOMEM, mkAdv buf (adv_data_len st))
  else
    let buf := poke buf ptr 2 in
    let buf := poke buf (ptr + 1) BT_DATA_FLAGS in
    let buf := poke buf (ptr + 2) (Z.lor BT_LE_AD_GENERAL BT_LE_AD_NO_BREDR) in
    let ptr := (ptr + 3)%nat in
    let remaining := u8 (remaining - 3) in
    let name_len := u8 (Z.of_nat (length adv_name)) in
    if remaining <? name_len + 2 then (- ENOMEM, mkAdv buf (adv_data_len st))
    else
      let buf := poke buf ptr (u8 (name_len + 1)) in
      let buf := poke buf (ptr + 1) BT_DATA_NAME_COMPLETE in
      let ptr := (ptr + 2)%nat in
      let buf := memcpy buf ptr adv_name in
      let ptr := (ptr + Z.to_nat name_len)%nat in
      let remaining := u8 (remaining - (name_len + 2)) in
      let mfg_data_len := u8 (SIZEOF_SENSOR_ADV_DATA + 4) in
      if remaining <? mfg_data_len + 1
      then (- ENOMEM, mkAdv buf (adv_data_len st))
      else
        let buf := poke buf ptr mfg_data_len in
        let buf := poke buf (ptr + 1) BT_DATA_MANUFACTURER_DATA in
        let buf := poke buf (ptr + 2) (Z.land NORDIC_COMPANY_ID 0xFF) in
        let buf :=
          poke buf (ptr + 3) (Z.land (Z.shiftr NORDIC_COMPANY_ID 8) 0xFF) in
        let ptr := (ptr + 4)%nat in
        let buf := memcpy buf ptr sensor_payload in
        let ptr := (ptr + Z.to_nat SIZEOF_SENSOR_ADV_DATA)%nat in
        (0, mkAdv buf (u8 (Z.of_nat ptr))).

(** One call of [bt_le_adv_start]: the two interval parameters, the data
    pointer's buffer and the data length. *)
Record adv_request : Type := mkAdvRequest {
  interval_min : Z; interval_max : Z; ad : list Z; ad_len : Z }.

(** [int ble_advertiser_start(...)].  [bt_le_adv_start] is the host's
    answer to a request; the requests made are returned last. *)
Definition ble_advertiser_start (bt_le_adv_start : adv_request -> Z)
    (sensor_payload : list Z) (tier : power_tier_t) (st : adv_state)
  : Z * adv_state * list adv_request :=
  let '(rc, st) := prepare_adv_data sensor_payload st in
  if negb (rc =? 0) then (rc, st, [])
  else
    let request :=
      {| interval_min := get_adv_interval tier;
         interval_max := get_adv_interval tier;
         ad := adv_data st;
         ad_len := adv_data_len st |} in
    let rc := bt_le_adv_start request in
    if negb (rc =? 0) then (rc, st, [request])
    else (0, st, [request]).

(** ** Reading aids for the statements below *)

(** What [rv3028_read_reg8] and [bme280_read_reg8] return on a response: the
    byte read, or 0 when the transfer failed. *)
Definition reg8_value (r : bus_resp) : Z :=
  if negb (resp_ret r =? 0) then 0 else byte_at (resp_data r) 0.

(** What [bme280_read_reg16] returns on a response. *)
Definition reg16_value (r : bus_resp) : Z :=
  if negb (resp_ret r =? 0) then 0
  else u16 (Z.lor (Z.shiftl (byte_at (resp_data r) 0) 8)
                  (byte_at (resp_data r) 1)).

Definition failed (r : bus_resp) : Prop := resp_ret r <> 0.

Definition issue_all (ops : list bus_op) (w : world) : world :=
  fold_left (fun w op => issue op w) ops w.

(** The transfers of [rv3028_clear_alarm] and
    [rv3028_enable_alarm_interrupt] when the control register read gets the
    response [r]. *)
Definition clear_alarm_ops (r : bus_resp) : list bus_op :=
  [ I2cWriteRead RV3028_I2C_ADDR [RV3028_REG_CONTROL2] 1;
    I2cWrite RV3028_I2C_ADDR
      [RV3028_REG_CONTROL2;
       u8 (Z.land (reg8_value r) (Z.lnot RV3028_CTRL2_AF))] ].

Definition enable_alarm_ops (r : bus_resp) : list bus_op :=
  [ I2cWriteRead RV3028_I2C_ADDR [RV3028_REG_CONTROL2] 1;
    I2cWrite RV3028_I2C_ADDR
      [RV3028_REG_CONTROL2; u8 (Z.lor (reg8_value r) RV3028_CTRL2_AIE)] ].

Definition get_time_op : bus_op :=
  I2cWriteRead RV3028_I2C_ADDR [RV3028_REG_SECONDS] 7.

Definition set_alarm_op (alarm : rv3028_alarm) : bus_op :=
  I2cWrite RV3028_I2C_ADDR (alarm_bytes alarm).

(** The twenty reads of [bme280_read_calibration_data], in order. *)
Definition calibration_ops : list bus_op :=
  map (fun reg => I2cWriteRead BME280_I2C_ADDR [reg] 2)
      [ BME280_REG_DIG_T1; BME280_REG_DIG_T2; BME280_REG_DIG_T3;
        BME280_REG_DIG_P1; BME280_REG_DIG_P2; BME280_REG_DIG_P3;
        BME280_REG_DIG_P4; BME280_REG_DIG_P5; BME280_REG_DIG_P6;
        BME280_REG_DIG_P7; BME280_REG_DIG_P8; BME280_REG_DIG_P9 ]
  ++ [ I2cWriteRead BME280_I2C_ADDR [BME280_REG_DIG_H1] 1;
       I2cWriteRead BME280_I2C_ADDR [BME280_REG_DIG_H2] 2;
       I2cWriteRead BME280_I2C_ADDR [BME280_REG_DIG_H3] 1;
       I2cWriteRead BME280_I2C_ADDR [BME280_REG_DIG_H4] 1;
       I2cWriteRead BME280_I2C_ADDR [BME280_REG_DIG_H4 + 1] 1;
       I2cWriteRead BME280_I2C_ADDR [BME280_REG_DIG_H5 + 1] 1;
       I2cWriteRead BME280_I2C_ADDR [BME280_REG_DIG_H5] 1;
       I2cWriteRead BME280_I2C_ADDR [BME280_REG_DIG_H6] 1 ].

(** Each calibration field with the positions, among those twenty reads, of
    the reads that load it. *)
Definition calibration_reads : list ((bme280_calib_data -> Z) * list nat) :=
  [ (dig_T1, [0]); (dig_T2, [1]); (dig_T3, [2]);
    (dig_P1, [3]); (dig_P2, [4]); (dig_P3, [5]); (dig_P4, [6]);
    (dig_P5, [7]); (dig_P6, [8]); (dig_P7, [9]); (dig_P8, [10]);
    (dig_P9, [11]);
    (dig_H1, [12]); (dig_H2, [13]); (dig_H3, [14]);
    (dig_H4, [15; 16]); (dig_H5, [17; 18]); (dig_H6, [19]) ]%nat.

(** [n] calls of [adaptive_scheduler_get_tier] with the same reading: the
    stored state after them. *)
Fixpoint repeat_get_tier (n : nat) (battery_mv : Z) (st : sched_state)
  : sched_state :=
  match n with
  | O => st
  | S n' => repeat_get_tier n' battery_mv
              (snd (adaptive_scheduler_get_tier battery_mv st))
  end.

(** ** Environments used in the examples *)

(** Every transfer succeeds and every read returns zero bytes. *)
Definition quiet_bus : world :=
  mkWorld (fun _ => mkResp 0 [0; 0; 0; 0; 0; 0; 0; 0]) [].

(** A bus that answers from a list, and succeeds with zero bytes after it. *)
Definition scripted (rs : list bus_resp) : world :=
  mkWorld (fun k => nth k rs (mkResp 0 [0; 0; 0; 0; 0; 0; 0; 0])) [].

Definition zero_calib : bme280_calib_data :=
  mkCalib 0 0 0 0 0 0 0 0 0 0 0 0 0 0 0 0 0 0.

(** Calibration words of a typical part (the sensor's data sheet example). *)
Definition sample_calib : bme280_calib_data :=
  {| dig_T1 := 27504; dig_T2 := 26435; dig_T3 := -1000;
     dig_P1 := 36477; dig_P2 := -10685; dig_P3 := 3024; dig_P4 := 2855;
     dig_P5 := 140; dig_P6 := -7; dig_P7 := 15500; dig_P8 := -14600;
     dig_P9 := 6000;
     dig_H1 := 75; dig_H2 := 361; dig_H3 := 0; dig_H4 := 324;
     dig_H5 := 50; dig_H6 := 30 |}.

(** The clock reads 23:58:00, weekday 2, date 15 (month 6, year 24); every
    transfer succeeds. *)
Definition before_midnight_bus : world :=
  scripted [ mkResp 0 [0x00];
             mkResp 0 [];
             mkResp 0 [0x00; 0x58; 0x23; 0x02; 0x15; 0x06; 0x24] ].

(** The read of the control register in [rv3028_clear_alarm] fails; the
    five transfers after it succeed. *)
Definition flag_read_fails_bus : world :=
  scripted [ mkResp (-5) [];
             mkResp 0 [];
             mkResp 0 [0x00; 0x58; 0x23; 0x02; 0x15; 0x06; 0x24] ].

(** The clock read fails. *)
Definition time_read_fails_bus : world :=
  scripted [ mkResp 0 [0x48]; mkResp 0 []; mkResp (-5) [] ].

(** The alarm write fails. *)
Definition alarm_write_fails_bus : world :=
  scripted [ mkResp 0 [0x48];
             mkResp 0 [];
             mkResp 0 [0x00; 0x58; 0x23; 0x02; 0x15; 0x06; 0x24];
             mkResp (-5) [] ].

(** The registers 0x88 and 0x89 hold 0x34 and 0x12. *)
Definition t1_bytes_bus : world :=
  scripted [ mkResp 0 [0x34; 0x12] ].

(** The read of H4's first byte fails; the second byte reads 0x0F. *)
Definition h4_msb_fails_bus : world :=
  mkWorld (fun k => if Nat.eqb k 15 then mkResp (-5) []
                    else mkResp 0 [0x0F; 0x0F]) [].

(** Every transfer fails. *)
Definition dead_bus : world := mkWorld (fun _ => mkResp (-5) []) [].

(** The sensor answers a forced measurement with mid-scale raw values. *)
Definition sample_measurement_bus : world :=
  scripted [ mkResp 0 [];
             mkResp 0 [0x65; 0x5A; 0xC0; 0x7E; 0xED; 0x00; 0x60; 0x00] ].

(** * Properties *)

(** ** Fixed-width integers *)

Lemma u8_range (x : Z) : 0 <= u8 x <= 255.
Proof. unfold u8. pose proof (Z.mod_pos_bound x 256). lia. Qed.

Lemma u8_small (x : Z) : 0 <= x <= 255 -> u8 x = x.
Proof. intros H. unfold u8. apply Z.mod_small. lia. Qed.

Lemma u32_small (x : Z) : 0 <= x < 4294967296 -> u32 x = x.
Proof. intros H. unfold u32. apply Z.mod_small. lia. Qed.

Lemma s32_range (x : Z) : -2147483648 <= s32 x <= 2147483647.
Proof.
  unfold s32. pose proof (Z.mod_pos_bound (x + 2147483648) 4294967296). lia.
Qed.

Lemma s32_small (x : Z) : -2147483648 <= x <= 2147483647 -> s32 x = x.
Proof. intros H. unfold s32. rewrite Z.mod_small; lia. Qed.

Lemma u32_nonzero (x : Z) :
  -4294967296 < x < 4294967296 -> x <> 0 -> u32 x <> 0.
Proof.
  intros Hr Hx Hm. unfold u32 in Hm.
  apply Z.mod_divide in Hm; [| lia].
  destruct Hm as [k Hk]. nia.
Qed.

Lemma asr32_range (x n : Z) :
  0 <= n -> -2147483648 <= x <= 2147483647 ->
  -2147483648 <= asr32 x n <= 2147483647.
Proof.
  intros Hn Hx. unfold asr32. rewrite Z.shiftr_div_pow2 by assumption.
  assert (Hp : 0 < 2 ^ n) by (apply Z.pow_pos_nonneg; lia).
  split.
  - apply Z.div_le_lower_bound; nia.
  - apply Z.div_le_upper_bound; nia.
Qed.

(** ** The tier controller *)

Lemma tier_eqb_eq (a b : power_tier_t) : tier_eqb a b = true <-> a = b.
Proof.
  unfold tier_eqb. rewrite Z.eqb_eq.
  split; [| intros ->; reflexivity].
  destruct a, b; simpl; intros H; try reflexivity; discriminate H.
Qed.

(** The stored tier after a call is the returned tier. *)
Lemma get_tier_stores_result (battery_mv : Z) (st : sched_state) :
  snd (adaptive_scheduler_get_tier battery_mv st)
  = mkSched (fst (adaptive_scheduler_get_tier battery_mv st)).
Proof.
  unfold adaptive_scheduler_get_tier. simpl.
  destruct (negb _); [reflexivity | destruct st; reflexivity].
Qed.

(** The returned tier is the hysteresis applied to the ladder tier. *)
Lemma get_tier_value (battery_mv : Z) (st : sched_state) :
  fst (adaptive_scheduler_get_tier battery_mv st)
  = apply_hysteresis battery_mv (current_tier st) (ladder_tier battery_mv).
Proof.
  unfold adaptive_scheduler_get_tier. simpl.
  destruct (negb _) eqn:E; [reflexivity |].
  apply negb_false_iff, tier_eqb_eq in E. symmetry. exact E.
Qed.

(** C1: whatever the battery voltage and the current tier, the tier returned
    by one call of [adaptive_scheduler_get_tier] has an ordinal at most one
    away from the current tier's: no tier is skipped, up or down. *)
Theorem get_tier_moves_at_most_one_step (battery_mv : Z) (st : sched_state) :
  Z.abs (tier_ord (fst (adaptive_scheduler_get_tier battery_mv st))
         - tier_ord (current_tier st)) <= 1.
Proof.
  rewrite get_tier_value.
  destruct st as [cur]; simpl.
  unfold apply_hysteresis, tier_eqb, tier_gtb.
  destruct (ladder_tier battery_mv), cur; simpl;
    rewrite ?andb_false_r, ?andb_true_r;
    repeat match goal with
           | |- context [if ?b then _ else _] => destruct b; simpl
           end; lia.
Qed.

(** C3: from Normal, the readings 4000, 3700, 3550, 3550, 3300, 3650 mV give
    the tiers Normal, Normal, Conserve, Conserve, Reserve, Conserve. *)
Theorem hysteresis_reference_run :
  run_readings [4000; 3700; 3550; 3550; 3300; 3650] sched_init
  = [ POWER_TIER_NORMAL; POWER_TIER_NORMAL; POWER_TIER_CONSERVE;
      POWER_TIER_CONSERVE; POWER_TIER_RESERVE; POWER_TIER_CONSERVE ].
Proof. reflexivity. Qed.

(** C7, as the claim has it, fails: a call can change the stored tier.  From
    the initial state a 3550 mV reading leaves [current_tier] at Conserve. *)
Lemma get_tier_changes_stored_tier :
  ~ (forall battery_mv st,
        snd (adaptive_scheduler_get_tier battery_mv st) = st).
Proof.
  intros H. specialize (H 3550 sched_init). discriminate H.
Qed.

(** C7, amended: the call itself records the returned tier: the stored tier
    after the call is the returned tier, so the stored state is left as it
    was exactly when the returned tier is the tier stored before the call.
    The result depends on nothing but the battery voltage and that stored
    tier. *)
Theorem get_tier_records_returned_tier (battery_mv : Z) (st : sched_state) :
  current_tier (snd (adaptive_scheduler_get_tier battery_mv st))
  = fst (adaptive_scheduler_get_tier battery_mv st)
  /\ (snd (adaptive_scheduler_get_tier battery_mv st) = st
      <-> fst (adaptive_scheduler_get_tier battery_mv st) = current_tier st)
  /\ fst (adaptive_scheduler_get_tier battery_mv st)
     = apply_hysteresis battery_mv (current_tier st) (ladder_tier battery_mv).
Proof.
  rewrite get_tier_stores_result. simpl.
  split; [reflexivity | split; [| apply get_tier_value]].
  destruct st as [cur]; simpl. split.
  - intros H. injection H as H. exact H.
  - intros ->. reflexivity.
Qed.

(** ** Running bus code *)

Lemma bind_run {A B : Type} (m : M A) (f : A -> M B) (w w' : world) (a : A) :
  m w = (a, w') -> bind m f w = f a w'.
Proof. intros H. unfold bind. rewrite H. reflexivity. Qed.

Lemma upcoming_issue (op : bus_op) (w : world) (k : nat) :
  upcoming (issue op w) k = upcoming w (S k).
Proof.
  unfold upcoming, issue. simpl. rewrite length_app. simpl.
  f_equal. lia.
Qed.

Lemma log_issue_all (ops : list bus_op) (w : world) :
  log (issue_all ops w) = log w ++ ops.
Proof.
  revert w. induction ops as [| op ops IH]; intros w; simpl.
  - symmetry. apply app_nil_r.
  - unfold issue_all in IH. rewrite IH. simpl.
    rewrite <- app_assoc. reflexivity.
Qed.

Lemma rv3028_read_reg8_run (reg : Z) (w : world) :
  rv3028_read_reg8 reg w
  = (reg8_value (upcoming w 0), issue (I2cWriteRead RV3028_I2C_ADDR [reg] 1) w).
Proof.
  unfold rv3028_read_reg8, rv3028_read_reg, i2c_write_read, bind, reg8_value.
  destruct (negb (resp_ret (upcoming w 0) =? 0)); reflexivity.
Qed.

Lemma rv3028_clear_alarm_run (w : world) :
  rv3028_clear_alarm w
  = (resp_ret (upcoming w 1), issue_all (clear_alarm_ops (upcoming w 0)) w).
Proof.
  unfold rv3028_clear_alarm.
  rewrite (bind_run _ _ _ _ _ (rv3028_read_reg8_run _ w)).
  unfold rv3028_write_reg, i2c_write. rewrite upcoming_issue. reflexivity.
Qed.

Lemma rv3028_enable_alarm_interrupt_run (w : world) :
  rv3028_enable_alarm_interrupt w
  = (resp_ret (upcoming w 1), issue_all (enable_alarm_ops (upcoming w 0)) w).
Proof.
  unfold rv3028_enable_alarm_interrupt.
  rewrite (bind_run _ _ _ _ _ (rv3028_read_reg8_run _ w)).
  unfold rv3028_write_reg, i2c_write. rewrite upcoming_issue. reflexivity.
Qed.

Lemma rv3028_get_time_run (w : world) :
  rv3028_get_time w
  = (if negb (resp_ret (upcoming w 0) =? 0)
     then Err (resp_ret (upcoming w 0))
     else Ok (time_of_regs (resp_data (upcoming w 0))),
     issue get_time_op w).
Proof.
  unfold rv3028_get_time, rv3028_read_reg, i2c_write_read, bind.
  destruct (negb (resp_ret (upcoming w 0) =? 0)); reflexivity.
Qed.

Lemma rv3028_set_alarm_run (alarm : rv3028_alarm) (w : world) :
  rv3028_set_alarm alarm w
  = (resp_ret (upcoming w 0), issue (set_alarm_op alarm) w).
Proof.
  unfold rv3028_set_alarm, i2c_write, bind.
  destruct (resp_ret (upcoming w 0) =? 0) eqn:E; simpl; [| reflexivity].
  apply Z.eqb_eq in E. rewrite E. reflexivity.
Qed.

(** The three ways [rv3028_set_wakeup_time] can run. *)
Lemma rv3028_set_wakeup_time_run (seconds_from_now : Z) (w : world) :
  let rc_time := resp_ret (upcoming w 0) in
  let rc_alarm := resp_ret (upcoming w 1) in
  let alarm :=
    wakeup_alarm (time_of_regs (resp_data (upcoming w 0))) seconds_from_now in
  rv3028_set_wakeup_time seconds_from_now w
  = if negb (rc_time =? 0) then (rc_time, issue get_time_op w)
    else if negb (rc_alarm =? 0)
    then (rc_alarm, issue_all [get_time_op; set_alarm_op alarm] w)
    else (resp_ret (upcoming w 3),
          issue_all ([get_time_op; set_alarm_op alarm]
                     ++ enable_alarm_ops (upcoming w 2)) w).
Proof.
  intros rc_time rc_alarm alarm. unfold rv3028_set_wakeup_time.
  rewrite (bind_run _ _ _ _ _ (rv3028_get_time_run w)).
  fold rc_time.
  destruct (negb (rc_time =? 0)); [reflexivity |].
  fold alarm.
  rewrite (bind_run _ _ _ _ _ (rv3028_set_alarm_run alarm _)).
  rewrite upcoming_issue. fold rc_alarm.
  destruct (negb (rc_alarm =? 0)); [reflexivity |].
  rewrite rv3028_enable_alarm_interrupt_run.
  rewrite !upcoming_issue. reflexivity.
Qed.

Lemma adaptive_scheduler_set_next_wake_run (interval_ms : Z) (w : world) :
  let rc_time := resp_ret (upcoming w 2) in
  let rc_alarm := resp_ret (upcoming w 3) in
  let alarm :=
    wakeup_alarm (time_of_regs (resp_data (upcoming w 2)))
                 (interval_ms / 1000) in
  let cleared := clear_alarm_ops (upcoming w 0) in
  adaptive_scheduler_set_next_wake interval_ms w
  = if negb (rc_time =? 0)
    then (rc_time, issue_all (cleared ++ [get_time_op]) w)
    else if negb (rc_alarm =? 0)
    then (rc_alarm,
          issue_all (cleared ++ [get_time_op; set_alarm_op alarm]) w)
    else (resp_ret (upcoming w 5),
          issue_all (cleared ++ [get_time_op; set_alarm_op alarm]
                     ++ enable_alarm_ops (upcoming w 4)) w).
Proof.
  intros rc_time rc_alarm alarm cleared.
  unfold adaptive_scheduler_set_next_wake.
  rewrite (bind_run _ _ _ _ _ (rv3028_clear_alarm_run w)).
  fold cleared.
  pose proof (rv3028_set_wakeup_time_run (interval_ms / 1000)
                (issue_all cleared w)) as Hrun.
  cbv zeta in Hrun.
  unfold cleared in Hrun. cbv [clear_alarm_ops issue_all fold_left] in Hrun.
  rewrite !upcoming_issue in Hrun.
  fold rc_time rc_alarm alarm in Hrun.
  unfold bind, cleared. cbv [clear_alarm_ops issue_all fold_left app].
  rewrite Hrun. cbv [issue_all fold_left enable_alarm_ops app].
  destruct (negb (rc_time =? 0)) eqn:Et.
  - rewrite Et. reflexivity.
  - destruct (negb (rc_alarm =? 0)) eqn:Ea.
    + rewrite Ea. reflexivity.
    + destruct (negb (resp_ret (upcoming w 5) =? 0)) eqn:E5; [reflexivity |].
      apply negb_false_iff, Z.eqb_eq in E5. rewrite E5. reflexivity.
Qed.

(** ** The clock's byte encoding *)

Lemma bcd_to_bin_range (bcd : Z) : 0 <= bcd_to_bin bcd <= 255.
Proof. apply u8_range. Qed.

Lemma bcd_round_trip_table :
  forallb (fun v => bcd_to_bin (bin_to_bcd v) =? v)
          (map Z.of_nat (seq 0 100)) = true.
Proof. vm_compute. reflexivity. Qed.

Lemma below_100_listed (v : Z) :
  0 <= v <= 99 -> In v (map Z.of_nat (seq 0 100)).
Proof.
  intros Hv. rewrite <- (Z2Nat.id v) by lia.
  apply in_map, in_seq. lia.
Qed.

(** C9: the decimal-coded-byte encoding round-trips on 0..99:
    [bcd_to_bin (bin_to_bcd v) = v]. *)
Theorem bcd_round_trip (v : Z) :
  0 <= v <= 99 -> bcd_to_bin (bin_to_bcd v) = v.
Proof.
  intros Hv. apply Z.eqb_eq.
  pose proof bcd_round_trip_table as Htable.
  rewrite forallb_forall in Htable.
  apply (Htable v), below_100_listed, Hv.
Qed.

(** The round trip at 59, the largest seconds value. *)
Lemma bcd_round_trip_witness :
  0 <= 59 <= 99 /\ bcd_to_bin (bin_to_bcd 59) = 59.
Proof.
  split; [lia | apply (bcd_round_trip 59); lia].
Defined.

(** The masks of [rv3028_get_time] keep every valid field: what
    [rv3028_set_time] encodes for seconds and minutes (0..59), hours (0..23),
    date (1..31) and month (1..12) decodes to the same value. *)
Lemma clock_fields_round_trip (v : Z) :
  (0 <= v <= 59 -> bcd_to_bin (Z.land (bin_to_bcd v) 0x7F) = v)
  /\ (0 <= v <= 23 -> bcd_to_bin (Z.land (bin_to_bcd v) 0x3F) = v)
  /\ (1 <= v <= 31 -> bcd_to_bin (Z.land (bin_to_bcd v) 0x3F) = v)
  /\ (1 <= v <= 12 -> bcd_to_bin (Z.land (bin_to_bcd v) 0x1F) = v).
Proof.
  assert (Hall : forall mask n,
            forallb (fun v => bcd_to_bin (Z.land (bin_to_bcd v) mask) =? v)
                    (map Z.of_nat (seq 0 n)) = true ->
            forall x, 0 <= x < Z.of_nat n ->
                      bcd_to_bin (Z.land (bin_to_bcd x) mask) = x).
  { intros mask n Htable x Hx. apply Z.eqb_eq.
    rewrite forallb_forall in Htable. apply (Htable x).
    rewrite <- (Z2Nat.id x) by lia. apply in_map, in_seq. lia. }
  repeat split; intros Hv.
  - apply (Hall 0x7F 60%nat); [vm_compute; reflexivity | lia].
  - apply (Hall 0x3F 24%nat); [vm_compute; reflexivity | lia].
  - apply (Hall 0x3F 32%nat); [vm_compute; reflexivity | lia].
  - apply (Hall 0x1F 13%nat); [vm_compute; reflexivity | lia].
Qed.

(** ** Programming the wake alarm *)

Lemma nth_error_after {A : Type} (l l' : list A) (k : nat) :
  nth_error (l ++ l') (length l + k) = nth_error l' k.
Proof.
  rewrite nth_error_app2 by lia. f_equal. lia.
Qed.

Lemma time_of_regs_range (data : list Z) :
  let t := time_of_regs data in
  0 <= tm_seconds t <= 255 /\ 0 <= tm_minutes t <= 255
  /\ 0 <= tm_hours t <= 255.
Proof. simpl. repeat split; apply bcd_to_bin_range. Qed.

(** With time fields that fit a byte and a delay that is a number of
    milliseconds below 2^32 divided by 1000, [target_seconds] does not wrap
    and the alarm fields fit their bytes. *)
Lemma wakeup_alarm_exact (t : rv3028_time) (interval_ms : Z) :
  0 <= tm_seconds t <= 255 -> 0 <= tm_minutes t <= 255 ->
  0 <= tm_hours t <= 255 -> 0 <= interval_ms < 4294967296 ->
  let target_seconds :=
    tm_hours t * 3600 + tm_minutes t * 60 + tm_seconds t
    + interval_ms / 1000 in
  wakeup_alarm t (interval_ms / 1000)
  = {| al_seconds := target_seconds mod 60;
       al_minutes := (target_seconds / 60) mod 60;
       al_hours := (target_seconds / 3600) mod 24;
       al_weekday := tm_weekday t;
       al_date := tm_date t |}.
Proof.
  intros Hs Hm Hh Hi target_seconds.
  assert (Hd : 0 <= interval_ms / 1000 <= 4294967).
  { split; [apply Z.div_pos; lia |].
    assert (interval_ms / 1000 < 4294968)
      by (apply Z.div_lt_upper_bound; lia).
    lia. }
  unfold wakeup_alarm, wakeup_target. fold target_seconds.
  rewrite (u32_small target_seconds) by (unfold target_seconds; lia).
  rewrite !u8_small; [reflexivity | | |];
    match goal with
    | |- 0 <= ?a mod ?b <= 255 =>
        pose proof (Z.mod_pos_bound a b ltac:(lia)); lia
    end.
Qed.

(** C2: when the clock read succeeds, the alarm that
    [adaptive_scheduler_set_next_wake] programs has
    hours = (target/3600) mod 24, minutes = (target/60) mod 60,
    seconds = target mod 60 for
    target = hours*3600 + minutes*60 + seconds + interval_ms/1000 of the time
    read, and the weekday and date of the time read, whatever the target;
    these are the fields written to the bus as the fourth transfer. *)
Theorem wake_alarm_fields (w : world) (interval_ms : Z) :
  0 <= interval_ms < 4294967296 ->
  resp_ret (upcoming w 2) = 0 ->
  let t := time_of_regs (resp_data (upcoming w 2)) in
  let target_seconds :=
    tm_hours t * 3600 + tm_minutes t * 60 + tm_seconds t
    + interval_ms / 1000 in
  let alarm :=
    {| al_seconds := target_seconds mod 60;
       al_minutes := (target_seconds / 60) mod 60;
       al_hours := (target_seconds / 3600) mod 24;
       al_weekday := tm_weekday t;
       al_date := tm_date t |} in
  wakeup_alarm t (interval_ms / 1000) = alarm
  /\ nth_error (log (snd (adaptive_scheduler_set_next_wake interval_ms w)))
               (length (log w) + 3)
     = Some (set_alarm_op alarm).
Proof.
  intros Hi Hread t target_seconds alarm.
  destruct (time_of_regs_range (resp_data (upcoming w 2))) as (Hs & Hm & Hh).
  assert (Halarm : wakeup_alarm t (interval_ms / 1000) = alarm)
    by (apply wakeup_alarm_exact; assumption).
  split; [exact Halarm |].
  rewrite adaptive_scheduler_set_next_wake_run. cbv zeta.
  rewrite Hread. fold t. rewrite Halarm. simpl negb. cbv iota.
  destruct (negb (resp_ret (upcoming w 3) =? 0));
    cbn [snd]; rewrite log_issue_all;
    rewrite (nth_error_after (log w) _ 3); reflexivity.
Qed.

(** At 23:58:00, weekday 2, date 15, a 300000 ms interval gives the alarm
    00:03:00 with weekday 2 and date 15 still. *)
Lemma wake_alarm_fields_across_midnight :
  wakeup_alarm (mkTime 0 58 23 2 15 6 2024) 300
  = {| al_hours := 0; al_minutes := 3; al_seconds := 0;
       al_weekday := 2; al_date := 15 |}
  /\ nth_error
       (log (snd (adaptive_scheduler_set_next_wake 300000
                    before_midnight_bus))) 3
     = Some (I2cWrite RV3028_I2C_ADDR [0x00; 0x03; 0x00; 2; 0x15]).
Proof.
  apply (wake_alarm_fields before_midnight_bus 300000); [lia | reflexivity].
Defined.

(** C6, as the claim has it, fails: the read of the control register in the
    flag-clearing step fails, and the operation goes on through all six
    transfers and returns 0. *)
Lemma set_next_wake_survives_failed_flag_read :
  failed (upcoming flag_read_fails_bus 0)
  /\ fst (adaptive_scheduler_set_next_wake 300000 flag_read_fails_bus) = 0
  /\ log (snd (adaptive_scheduler_set_next_wake 300000 flag_read_fails_bus))
     = [ I2cWriteRead RV3028_I2C_ADDR [RV3028_REG_CONTROL2] 1;
         I2cWrite RV3028_I2C_ADDR [RV3028_REG_CONTROL2; 0x00];
         I2cWriteRead RV3028_I2C_ADDR [RV3028_REG_SECONDS] 7;
         I2cWrite RV3028_I2C_ADDR [0x00; 0x03; 0x00; 2; 0x15];
         I2cWriteRead RV3028_I2C_ADDR [RV3028_REG_CONTROL2] 1;
         I2cWrite RV3028_I2C_ADDR [RV3028_REG_CONTROL2; 0x08] ].
Proof.
  split; [intros H; discriminate H | split; reflexivity].
Qed.

(** C6, amended: a failed clock read, and after a good clock read a failed
    alarm write, abort [adaptive_scheduler_set_next_wake] at that transfer
    with the transfer's non-zero status and no later transfer is issued; when
    both succeed the operation issues the two transfers that enable the
    alarm interrupt and returns the status of the last one, the control
    register write.  A control register read that fails aborts nothing: its
    value is taken as 0 and the write that follows is issued. *)
Theorem set_next_wake_abort_points (w : world) (interval_ms : Z) :
  let run := adaptive_scheduler_set_next_wake interval_ms w in
  let cleared := clear_alarm_ops (upcoming w 0) in
  let alarm :=
    wakeup_alarm (time_of_regs (resp_data (upcoming w 2)))
                 (interval_ms / 1000) in
  (failed (upcoming w 2) ->
     fst run = resp_ret (upcoming w 2) /\ fst run <> 0
     /\ log (snd run) = log w ++ cleared ++ [get_time_op])
  /\ (resp_ret (upcoming w 2) = 0 -> failed (upcoming w 3) ->
        fst run = resp_ret (upcoming w 3) /\ fst run <> 0
        /\ log (snd run)
           = log w ++ cleared ++ [get_time_op; set_alarm_op alarm])
  /\ (resp_ret (upcoming w 2) = 0 -> resp_ret (upcoming w 3) = 0 ->
        fst run = resp_ret (upcoming w 5)
        /\ log (snd run)
           = log w ++ cleared ++ [get_time_op; set_alarm_op alarm]
                   ++ enable_alarm_ops (upcoming w 4)).
Proof.
  intros run cleared alarm. unfold run, failed.
  rewrite adaptive_scheduler_set_next_wake_run. cbv zeta.
  fold cleared alarm.
  split; [| split].
  - intros Htime.
    pose proof (proj2 (Z.eqb_neq _ _) Htime) as Eq. rewrite Eq.
    cbn [negb fst snd].
    split; [reflexivity | split; [exact Htime | apply log_issue_all]].
  - intros Htime Halarm.
    pose proof (proj2 (Z.eqb_neq _ _) Halarm) as Eq. rewrite Htime, Eq.
    cbn [negb fst snd Z.eqb].
    split; [reflexivity | split; [exact Halarm | apply log_issue_all]].
  - intros Htime Halarm. rewrite Htime, Halarm.
    cbn [negb fst snd Z.eqb].
    split; [reflexivity | apply log_issue_all].
Qed.

(** The three runs: the clock read fails (three transfers), the alarm write
    fails (four), nothing fails (six). *)
Lemma set_next_wake_abort_points_witness :
  (fst (adaptive_scheduler_set_next_wake 300000 time_read_fails_bus) = -5
   /\ length (log (snd (adaptive_scheduler_set_next_wake 300000
                          time_read_fails_bus))) = 3%nat)
  /\ (fst (adaptive_scheduler_set_next_wake 300000 alarm_write_fails_bus) = -5
      /\ length (log (snd (adaptive_scheduler_set_next_wake 300000
                             alarm_write_fails_bus))) = 4%nat)
  /\ (fst (adaptive_scheduler_set_next_wake 300000 before_midnight_bus) = 0
      /\ length (log (snd (adaptive_scheduler_set_next_wake 300000
                             before_midnight_bus))) = 6%nat).
Proof.
  split; [| split].
  - assert (Hfail : failed (upcoming time_read_fails_bus 2))
      by (intros H; discriminate H).
    pose proof (proj1 (set_next_wake_abort_points time_read_fails_bus 300000)
                      Hfail) as (Hrc & _ & Hlog).
    split; [exact Hrc | rewrite Hlog; reflexivity].
  - assert (Hfail : failed (upcoming alarm_write_fails_bus 3))
      by (intros H; discriminate H).
    pose proof (proj1 (proj2 (set_next_wake_abort_points
                                alarm_write_fails_bus 300000))
                      eq_refl Hfail) as (Hrc & _ & Hlog).
    split; [exact Hrc | rewrite Hlog; reflexivity].
  - pose proof (proj2 (proj2 (set_next_wake_abort_points
                                before_midnight_bus 300000))
                      eq_refl eq_refl) as (Hrc & Hlog).
    split; [exact Hrc | rewrite Hlog; reflexivity].
Defined.

(** ** Calibration load *)

Lemma lor_shiftl_byte (hi lo : Z) :
  0 <= lo <= 255 -> Z.lor (Z.shiftl hi 8) lo = hi * 256 + lo.
Proof.
  intros Hlo.
  assert (Hdisj : Z.land (Z.shiftl hi 8) lo = 0).
  { apply Z.bits_inj'. intros n Hn.
    rewrite Z.land_spec, Z.bits_0.
    destruct (Z.lt_ge_cases n 8) as [Hlt | Hge].
    - rewrite Z.shiftl_spec_low by assumption. reflexivity.
    - rewrite <- (Z.mod_small lo (2 ^ 8)) by (change (2 ^ 8) with 256; lia).
      rewrite Z.mod_pow2_bits_high by lia. apply andb_false_r. }
  pose proof (Z.add_lor_land (Z.shiftl hi 8) lo) as Hadd.
  rewrite Hdisj in Hadd. rewrite Z.shiftl_mul_pow2 in * by lia.
  change (2 ^ 8) with 256 in *. lia.
Qed.

(** The 16-bit word [bme280_read_reg16] makes of a good response: the byte
    of the lower register is the high-order byte. *)
Lemma reg16_value_byte_order (r : bus_resp) :
  resp_ret r = 0 ->
  reg16_value r = byte_at (resp_data r) 0 * 256 + byte_at (resp_data r) 1.
Proof.
  intros Hok. unfold reg16_value. rewrite Hok.
  change (negb (0 =? 0)) with false. cbv iota.
  pose proof (u8_range (nth 0 (resp_data r) 0)) as H0.
  pose proof (u8_range (nth 1 (resp_data r) 0)) as H1.
  unfold byte_at. rewrite lor_shiftl_byte by assumption.
  unfold u16. apply Z.mod_small. lia.
Qed.

Lemma bme280_read_reg8_run (reg : Z) (w : world) :
  bme280_read_reg8 reg w
  = (reg8_value (upcoming w 0), issue (I2cWriteRead BME280_I2C_ADDR [reg] 1) w).
Proof.
  unfold bme280_read_reg8, bme280_read_reg, i2c_write_read, bind, reg8_value.
  destruct (negb (resp_ret (upcoming w 0) =? 0)); reflexivity.
Qed.

Lemma bme280_read_reg16_run (reg : Z) (w : world) :
  bme280_read_reg16 reg w
  = (reg16_value (upcoming w 0),
     issue (I2cWriteRead BME280_I2C_ADDR [reg] 2) w).
Proof.
  unfold bme280_read_reg16, bme280_read_reg, i2c_write_read, bind, reg16_value.
  destruct (negb (resp_ret (upcoming w 0) =? 0)); reflexivity.
Qed.

Lemma bme280_read_reg16_signed_run (reg : Z) (w : world) :
  bme280_read_reg16_signed reg w
  = (s16 (reg16_value (upcoming w 0)),
     issue (I2cWriteRead BME280_I2C_ADDR [reg] 2) w).
Proof.
  unfold bme280_read_reg16_signed.
  rewrite (bind_run _ _ _ _ _ (bme280_read_reg16_run reg w)). reflexivity.
Qed.

Ltac read_step :=
  first
    [ rewrite (bind_run _ _ _ _ _ (bme280_read_reg16_signed_run _ _))
    | rewrite (bind_run _ _ _ _ _ (bme280_read_reg16_run _ _))
    | rewrite (bind_run _ _ _ _ _ (bme280_read_reg8_run _ _)) ].

(** The whole load in terms of the twenty responses. *)
Lemma bme280_read_calibration_data_run (w : world) :
  let word k := reg16_value (upcoming w k) in
  let byte k := reg8_value (upcoming w k) in
  bme280_read_calibration_data w
  = ((0,
      {| dig_T1 := word 0%nat; dig_T2 := s16 (word 1%nat);
         dig_T3 := s16 (word 2%nat);
         dig_P1 := word 3%nat; dig_P2 := s16 (word 4%nat);
         dig_P3 := s16 (word 5%nat); dig_P4 := s16 (word 6%nat);
         dig_P5 := s16 (word 7%nat); dig_P6 := s16 (word 8%nat);
         dig_P7 := s16 (word 9%nat); dig_P8 := s16 (word 10%nat);
         dig_P9 := s16 (word 11%nat);
         dig_H1 := byte 12%nat; dig_H2 := s16 (word 13%nat);
         dig_H3 := byte 14%nat;
         dig_H4 := h4_of (byte 15%nat) (byte 16%nat);
         dig_H5 := h5_of (byte 17%nat) (byte 18%nat);
         dig_H6 := s8 (byte 19%nat) |}),
     issue_all calibration_ops w).
Proof.
  intros word byte. unfold bme280_read_calibration_data.
  do 20 read_step.
  unfold ret, word, byte. rewrite !upcoming_issue. reflexivity.
Qed.

Lemma reg16_value_failed (r : bus_resp) : failed r -> reg16_value r = 0.
Proof.
  unfold failed, reg16_value. intros H.
  apply Z.eqb_neq in H. rewrite H. reflexivity.
Qed.

Lemma reg8_value_failed (r : bus_resp) : failed r -> reg8_value r = 0.
Proof.
  unfold failed, reg8_value. intros H.
  apply Z.eqb_neq in H. rewrite H. reflexivity.
Qed.

(** C4: the code assembles a calibration word with the byte of the lower
    register as the HIGH-order byte.  With 0x34 in register 0x88 and 0x12 in
    0x89, [dig_T1] is loaded as 0x3412; the little-endian word is 0x1234. *)
Theorem calibration_word_byte_order :
  bme280_read_reg16 BME280_REG_DIG_T1 t1_bytes_bus
  = (0x3412, issue (I2cWriteRead BME280_I2C_ADDR [0x88] 2) t1_bytes_bus)
  /\ dig_T1 (snd (fst (bme280_read_calibration_data t1_bytes_bus))) = 0x3412
  /\ 0x3412 <> 0x34 + 256 * 0x12.
Proof.
  split; [reflexivity | split; [reflexivity | discriminate]].
Qed.

(** C8, as the claim has it, fails for a field assembled from two reads:
    with the read of H4's first byte failing and the second byte reading
    0x0F, the load returns 0 and [dig_H4] is stored as 15, not zero. *)
Lemma calibration_load_half_failed_h4 :
  failed (upcoming h4_msb_fails_bus 15)
  /\ fst (fst (bme280_read_calibration_data h4_msb_fails_bus)) = 0
  /\ dig_H4 (snd (fst (bme280_read_calibration_data h4_msb_fails_bus))) = 15
  /\ dig_H4 (snd (fst (bme280_read_calibration_data h4_msb_fails_bus))) <> 0.
Proof.
  split; [intros H; discriminate H |].
  split; [reflexivity | split; [reflexivity | discriminate]].
Qed.

(** C8, amended: whatever reads fail, [bme280_read_calibration_data] issues
    all twenty reads and returns 0, and a failed read contributes the value
    zero: every calibration field all of whose reads failed is stored as
    zero, and [dig_H4] and [dig_H5], each assembled from two byte reads, are
    assembled with zero in place of a byte whose read failed. *)
Theorem calibration_load_zeroes_failed_reads (w : world) :
  let run := bme280_read_calibration_data w in
  let c := snd (fst run) in
  let byte k := reg8_value (upcoming w k) in
  fst (fst run) = 0
  /\ log (snd run) = log w ++ calibration_ops
  /\ Forall (fun '(field, reads) =>
               (forall k, In k reads -> failed (upcoming w k)) -> field c = 0)
            calibration_reads
  /\ (failed (upcoming w 15) -> dig_H4 c = h4_of 0 (byte 16%nat))
  /\ (failed (upcoming w 16) -> dig_H4 c = h4_of (byte 15%nat) 0)
  /\ (failed (upcoming w 17) -> dig_H5 c = h5_of 0 (byte 18%nat))
  /\ (failed (upcoming w 18) -> dig_H5 c = h5_of (byte 17%nat) 0).
Proof.
  intros run c byte. unfold c, run, byte.
  rewrite bme280_read_calibration_data_run. cbv zeta. cbn [fst snd].
  split; [reflexivity | split; [apply log_issue_all |]].
  split.
  - unfold calibration_reads.
    repeat apply Forall_cons; try apply Forall_nil;
      intros Hfail;
      cbn [dig_T1 dig_T2 dig_T3 dig_P1 dig_P2 dig_P3 dig_P4 dig_P5
           dig_P6 dig_P7 dig_P8 dig_P9 dig_H1 dig_H2 dig_H3 dig_H4
           dig_H5 dig_H6];
      rewrite ?reg16_value_failed, ?reg8_value_failed
        by (apply Hfail; simpl; tauto);
      reflexivity.
  - cbn [dig_H4 dig_H5].
    repeat split; intros Hfail; rewrite (reg8_value_failed _ Hfail);
      reflexivity.
Qed.

(** On a bus where every read fails the load returns 0 with zero fields; with
    only H4's first byte failing [dig_H4] keeps the second byte's nibble. *)
Lemma calibration_load_zeroes_failed_reads_witness :
  fst (fst (bme280_read_calibration_data dead_bus)) = 0
  /\ dig_T1 (snd (fst (bme280_read_calibration_data dead_bus))) = 0
  /\ dig_H4 (snd (fst (bme280_read_calibration_data dead_bus))) = 0
  /\ dig_H4 (snd (fst (bme280_read_calibration_data h4_msb_fails_bus)))
     = h4_of 0 0x0F.
Proof.
  pose proof (calibration_load_zeroes_failed_reads dead_bus)
    as (Hrc & _ & Hfields & _).
  rewrite Forall_forall in Hfields.
  assert (Hdead : forall reads k, In k reads -> failed (upcoming dead_bus k))
    by (intros reads k _ H; discriminate H).
  assert (Hmsb : failed (upcoming h4_msb_fails_bus 15))
    by (intros H; discriminate H).
  split; [exact Hrc | split; [| split]].
  - apply (Hfields (dig_T1, [0%nat])); [simpl; tauto | apply Hdead].
  - apply (Hfields (dig_H4, [15%nat; 16%nat])); [simpl; tauto | apply Hdead].
  - pose proof (calibration_load_zeroes_failed_reads h4_msb_fails_bus)
      as (_ & _ & _ & Hh4 & _).
    exact (Hh4 Hmsb).
Defined.

(** ** The forced measurement *)

Lemma bme280_read_forced_run (c : bme280_calib_data) (w : world) :
  let trigger := I2cWrite BME280_I2C_ADDR [BME280_REG_CTRL_MEAS; 0x25] in
  let fetch := I2cWriteRead BME280_I2C_ADDR [BME280_REG_PRESS_MSB] 8 in
  bme280_read_forced c w
  = if negb (resp_ret (upcoming w 0) =? 0)
    then (Fail (- EIO), issue trigger w)
    else (if negb (resp_ret (upcoming w 1) =? 0) then Fail (- EIO)
          else compensate c (resp_data (upcoming w 1)),
          issue_all [trigger; fetch] w).
Proof.
  intros trigger fetch.
  unfold bme280_read_forced, bme280_write_reg, bme280_read_reg,
    i2c_write, i2c_write_read, bind.
  destruct (negb (resp_ret (upcoming w 0) =? 0)); [reflexivity |].
  rewrite upcoming_issue.
  destruct (negb (resp_ret (upcoming w 1) =? 0)); reflexivity.
Qed.

Lemma press_var1_of_range (c : bme280_calib_data) (t_fine : Z) :
  -2147483648 <= press_var1_of c t_fine <= 2147483647.
Proof.
  unfold press_var1_of. apply asr32_range; [lia |].
  unfold mul32. apply s32_range.
Qed.

(** Past the test, the divisor [(uint32_t)var1] is not zero. *)
Lemma press_after_guard_defined (c : bme280_calib_data) (adc_P var1 var2 : Z) :
  -2147483648 <= var1 <= 2147483647 -> var1 <> 0 ->
  press_after_guard c adc_P var1 var2 <> None.
Proof.
  intros Hrange Hnz.
  assert (Hdiv : (u32 var1 =? 0) = false)
    by (apply Z.eqb_neq, u32_nonzero; [lia | assumption]).
  unfold press_after_guard, udiv32. rewrite Hdiv.
  destruct (u32 _ <? 0x80000000); discriminate.
Qed.

Lemma compensate_cases (c : bme280_calib_data) (raw_data : list Z) :
  let t_fine := t_fine_of c (adc_T_of raw_data) in
  let var1 := press_var1_of c t_fine in
  (var1 = 0 /\ compensate c raw_data = Fail (- EIO))
  \/ (var1 <> 0
      /\ exists p,
           compensate c raw_data
           = Done {| temperature_x100 := temperature_of t_fine;
                     pressure_x256 := p;
                     humidity_x1024 :=
                       humidity_of c t_fine (adc_H_of raw_data) |}).
Proof.
  intros t_fine var1. unfold compensate. fold t_fine. fold var1.
  destruct (var1 =? 0) eqn:E.
  - left. split; [apply Z.eqb_eq, E | reflexivity].
  - right. apply Z.eqb_neq in E. split; [exact E |].
    pose proof (press_after_guard_defined c (adc_P_of raw_data) var1
                  (press_var2_of c t_fine)
                  (press_var1_of_range c t_fine) E) as Hdef.
    destruct (press_after_guard _ _ _ _) as [p |]; [| contradiction].
    exists p. reflexivity.
Qed.

(** C5: when the pressure intermediate [var1] is zero,
    [bme280_read_forced] returns the error [-EIO]; no run divides by zero;
    and a run that completes had [var1] different from zero. *)
Theorem pressure_division_is_guarded (c : bme280_calib_data) (w : world) :
  let raw_data := resp_data (upcoming w 1) in
  let var1 := press_var1_of c (t_fine_of c (adc_T_of raw_data)) in
  (var1 = 0 -> fst (bme280_read_forced c w) = Fail (- EIO))
  /\ fst (bme280_read_forced c w) <> DivByZero
  /\ (forall d, fst (bme280_read_forced c w) = Done d -> var1 <> 0).
Proof.
  intros raw_data var1.
  rewrite bme280_read_forced_run. cbv zeta.
  destruct (negb (resp_ret (upcoming w 0) =? 0)); cbn [fst];
    [repeat split; intros; discriminate |].
  destruct (negb (resp_ret (upcoming w 1) =? 0));
    [repeat split; intros; discriminate |].
  destruct (compensate_cases c raw_data) as [[Hz Hc] | [Hnz [p Hc]]];
    fold raw_data; rewrite Hc.
  - repeat split; intros; discriminate.
  - split; [intros Hz; contradiction | split; [discriminate |]].
    intros d _. exact Hnz.
Qed.

(** With an all-zero calibration [var1] is zero and the call returns -5. *)
Lemma pressure_division_is_guarded_witness :
  press_var1_of zero_calib
    (t_fine_of zero_calib (adc_T_of (resp_data (upcoming quiet_bus 1)))) = 0
  /\ fst (bme280_read_forced zero_calib quiet_bus) = Fail (-5)
  /\ fst (bme280_read_forced sample_calib sample_measurement_bus)
     <> DivByZero.
Proof.
  split; [reflexivity | split].
  - apply (proj1 (pressure_division_is_guarded zero_calib quiet_bus)).
    reflexivity.
  - apply (proj1 (proj2 (pressure_division_is_guarded sample_calib
                           sample_measurement_bus))).
Defined.

Lemma hum_clamp_range (var1 : Z) : 0 <= hum_clamp var1 <= 419430400.
Proof.
  unfold hum_clamp.
  destruct (var1 <? 0) eqn:Elo.
  - simpl. lia.
  - apply Z.ltb_ge in Elo.
    destruct (var1 >? 419430400) eqn:Ehi; [lia |].
    rewrite Z.gtb_ltb in Ehi. apply Z.ltb_ge in Ehi. lia.
Qed.

Lemma humidity_of_range (c : bme280_calib_data) (t_fine adc_H : Z) :
  0 <= humidity_of c t_fine adc_H <= 102400.
Proof.
  unfold humidity_of, asr32.
  pose proof (hum_clamp_range (hum_var1_of c t_fine adc_H)) as Hc.
  rewrite Z.shiftr_div_pow2 by lia.
  change (2 ^ 12) with 4096.
  assert (Hq : 0 <= hum_clamp (hum_var1_of c t_fine adc_H) / 4096 <= 102400).
  { split; [apply Z.div_pos; lia | apply Z.div_le_upper_bound; lia]. }
  rewrite u32_small by lia. rewrite s32_small by lia. exact Hq.
Qed.

(** C10: the humidity a completed [bme280_read_forced] stores is within
    [0, 100]: the clamped intermediate, at most 419430400, shifted right by
    12 is at most 102400, and the stored value is that over 1024. *)
Theorem humidity_within_percent (c : bme280_calib_data) (w : world)
    (d : bme280_data) :
  fst (bme280_read_forced c w) = Done d ->
  0 <= humidity_x1024 d <= 102400
  /\ (0 <= humidity d <= 100)%Q.
Proof.
  rewrite bme280_read_forced_run. cbv zeta.
  destruct (negb (resp_ret (upcoming w 0) =? 0)); cbn [fst];
    [discriminate |].
  destruct (negb (resp_ret (upcoming w 1) =? 0)); [discriminate |].
  destruct (compensate_cases c (resp_data (upcoming w 1)))
    as [[_ Hc] | [_ [p Hc]]]; rewrite Hc; [discriminate |].
  intros Hd. injection Hd as <-.
  unfold humidity. cbn [humidity_x1024].
  pose proof (humidity_of_range c
                (t_fine_of c (adc_T_of (resp_data (upcoming w 1))))
                (adc_H_of (resp_data (upcoming w 1)))) as Hr.
  split; [exact Hr |].
  unfold Qle. cbn [Qnum Qden inject_Z]. lia.
Qed.

(** A completed measurement: humidity numerator 334. *)
Lemma humidity_within_percent_witness :
  fst (bme280_read_forced sample_calib sample_measurement_bus)
  = Done (mkData 2508 100656 334)
  /\ 0 <= 334 <= 102400
  /\ (0 <= humidity (mkData 2508 100656 334) <= 100)%Q.
Proof.
  split; [reflexivity |].
  apply (humidity_within_percent sample_calib sample_measurement_bus
           (mkData 2508 100656 334)).
  reflexivity.
Defined.

(** * Further properties of the code *)

(** ** The tier controller, beyond one step *)

Ltac compare_cases :=
  repeat match goal with
         | |- context [?a >=? ?b] => rewrite (Z.geb_leb a b)
         | |- context [?a >? ?b] => rewrite (Z.gtb_ltb a b)
         end;
  repeat match goal with
         | |- context [?a <=? ?b] => destruct (Z.leb_spec a b)
         | |- context [?a <? ?b] => destruct (Z.ltb_spec a b)
         end.

Ltac unfold_tiers :=
  cbv beta delta
      [apply_hysteresis ladder_tier
       BATTERY_THRESHOLD_NORMAL_HIGH BATTERY_THRESHOLD_NORMAL_LOW
       BATTERY_THRESHOLD_CONSERVE_HIGH BATTERY_THRESHOLD_CONSERVE_LOW
       BATTERY_THRESHOLD_RESERVE_HIGH BATTERY_THRESHOLD_RESERVE_LOW].

(** The controller as one look-up: what a call returns, per stored tier and
    voltage. *)
Lemma get_tier_by_band (battery_mv : Z) (cur : power_tier_t) :
  fst (adaptive_scheduler_get_tier battery_mv (mkSched cur))
  = match cur with
    | POWER_TIER_NORMAL =>
        if battery_mv <=? 3600 then POWER_TIER_CONSERVE else POWER_TIER_NORMAL
    | POWER_TIER_CONSERVE =>
        if battery_mv <=? 3400 then POWER_TIER_RESERVE
        else if 3800 <=? battery_mv then POWER_TIER_NORMAL
        else POWER_TIER_CONSERVE
    | POWER_TIER_RESERVE =>
        if battery_mv <=? 3200 then POWER_TIER_SURVIVAL
        else if 3600 <=? battery_mv then POWER_TIER_CONSERVE
        else POWER_TIER_RESERVE
    | POWER_TIER_SURVIVAL =>
        if 3400 <=? battery_mv then POWER_TIER_RESERVE
        else POWER_TIER_SURVIVAL
    end.
Proof.
  rewrite get_tier_value. cbn [current_tier].
  destruct cur; unfold_tiers; compare_cases; try reflexivity; lia.
Qed.

Lemma repeat_get_tier_S (n : nat) (battery_mv : Z) (cur : power_tier_t) :
  repeat_get_tier (S n) battery_mv (mkSched cur)
  = repeat_get_tier n battery_mv
      (mkSched (fst (adaptive_scheduler_get_tier battery_mv (mkSched cur)))).
Proof.
  cbn [repeat_get_tier]. rewrite get_tier_stores_result. reflexivity.
Qed.

(** X1: the returned tier never moves away from the tier of the absolute
    ladder: its ordinal lies between the stored tier's and the ladder
    tier's. *)
Theorem get_tier_moves_toward_ladder (battery_mv : Z) (st : sched_state) :
  let r := tier_ord (fst (adaptive_scheduler_get_tier battery_mv st)) in
  let c := tier_ord (current_tier st) in
  let l := tier_ord (ladder_tier battery_mv) in
  (c <= r <= l) \/ (l <= r <= c).
Proof.
  destruct st as [cur]. cbv zeta. rewrite get_tier_by_band.
  cbn [current_tier]. unfold ladder_tier.
  unfold BATTERY_THRESHOLD_NORMAL_HIGH, BATTERY_THRESHOLD_CONSERVE_HIGH,
    BATTERY_THRESHOLD_RESERVE_HIGH.
  destruct cur; compare_cases; cbn; lia.
Qed.

(** X2: the hysteresis bands.  Normal is kept above 3600 mV and left for
    Conserve at or below; Conserve is kept strictly between 3400 and 3800,
    left for Reserve at or below 3400 and for Normal from 3800; Reserve is
    kept strictly between 3200 and 3600, left for Survival at or below 3200
    and for Conserve from 3600; Survival is kept below 3400 and left for
    Reserve from 3400. *)
Theorem get_tier_bands (battery_mv : Z) (st : sched_state) :
  let r := fst (adaptive_scheduler_get_tier battery_mv st) in
  match current_tier st with
  | POWER_TIER_NORMAL =>
      (battery_mv <= BATTERY_THRESHOLD_NORMAL_LOW -> r = POWER_TIER_CONSERVE)
      /\ (BATTERY_THRESHOLD_NORMAL_LOW < battery_mv -> r = POWER_TIER_NORMAL)
  | POWER_TIER_CONSERVE =>
      (battery_mv <= BATTERY_THRESHOLD_CONSERVE_LOW -> r = POWER_TIER_RESERVE)
      /\ (BATTERY_THRESHOLD_CONSERVE_LOW < battery_mv
            < BATTERY_THRESHOLD_NORMAL_HIGH -> r = POWER_TIER_CONSERVE)
      /\ (BATTERY_THRESHOLD_NORMAL_HIGH <= battery_mv -> r = POWER_TIER_NORMAL)
  | POWER_TIER_RESERVE =>
      (battery_mv <= BATTERY_THRESHOLD_RESERVE_LOW -> r = POWER_TIER_SURVIVAL)
      /\ (BATTERY_THRESHOLD_RESERVE_LOW < battery_mv
            < BATTERY_THRESHOLD_CONSERVE_HIGH -> r = POWER_TIER_RESERVE)
      /\ (BATTERY_THRESHOLD_CONSERVE_HIGH <= battery_mv
          -> r = POWER_TIER_CONSERVE)
  | POWER_TIER_SURVIVAL =>
      (battery_mv < BATTERY_THRESHOLD_RESERVE_HIGH -> r = POWER_TIER_SURVIVAL)
      /\ (BATTERY_THRESHOLD_RESERVE_HIGH <= battery_mv
          -> r = POWER_TIER_RESERVE)
  end.
Proof.
  destruct st as [cur]. cbv zeta. rewrite get_tier_by_band.
  unfold BATTERY_THRESHOLD_NORMAL_HIGH, BATTERY_THRESHOLD_NORMAL_LOW,
    BATTERY_THRESHOLD_CONSERVE_HIGH, BATTERY_THRESHOLD_CONSERVE_LOW,
    BATTERY_THRESHOLD_RESERVE_HIGH, BATTERY_THRESHOLD_RESERVE_LOW.
  destruct cur; cbn [current_tier]; repeat split; intros Hmv;
    compare_cases; try reflexivity; lia.
Qed.

(** At 3700 mV both Normal and Conserve are kept; at 3600 mV Normal is
    left for Conserve and Reserve is left for Conserve. *)
Lemma get_tier_bands_witness :
  fst (adaptive_scheduler_get_tier 3700 (mkSched POWER_TIER_NORMAL))
  = POWER_TIER_NORMAL
  /\ fst (adaptive_scheduler_get_tier 3700 (mkSched POWER_TIER_CONSERVE))
     = POWER_TIER_CONSERVE
  /\ fst (adaptive_scheduler_get_tier 3600 (mkSched POWER_TIER_NORMAL))
     = POWER_TIER_CONSERVE
  /\ fst (adaptive_scheduler_get_tier 3600 (mkSched POWER_TIER_RESERVE))
     = POWER_TIER_CONSERVE.
Proof.
  split; [| split; [| split]].
  - apply (proj2 (get_tier_bands 3700 (mkSched POWER_TIER_NORMAL))).
    unfold BATTERY_THRESHOLD_NORMAL_LOW. lia.
  - apply (proj1 (proj2 (get_tier_bands 3700 (mkSched POWER_TIER_CONSERVE)))).
    unfold BATTERY_THRESHOLD_CONSERVE_LOW, BATTERY_THRESHOLD_NORMAL_HIGH. lia.
  - apply (proj1 (get_tier_bands 3600 (mkSched POWER_TIER_NORMAL))).
    unfold BATTERY_THRESHOLD_NORMAL_LOW. lia.
  - apply (proj2 (proj2 (get_tier_bands 3600 (mkSched POWER_TIER_RESERVE)))).
    unfold BATTERY_THRESHOLD_CONSERVE_HIGH. lia.
Defined.

(** X3: at a constant reading the tier settles within three calls: the
    fourth call returns the tier the third one stored. *)
Theorem get_tier_settles_in_three_calls (battery_mv : Z) (st : sched_state) :
  fst (adaptive_scheduler_get_tier battery_mv
         (repeat_get_tier 3 battery_mv st))
  = current_tier (repeat_get_tier 3 battery_mv st).
Proof.
  destruct st as [cur].
  rewrite !repeat_get_tier_S. cbn [repeat_get_tier current_tier].
  destruct cur; rewrite !get_tier_by_band;
    compare_cases; cbn; rewrite ?get_tier_by_band;
    compare_cases; cbn; rewrite ?get_tier_by_band;
    compare_cases; cbn; rewrite ?get_tier_by_band;
    compare_cases; cbn; try reflexivity; lia.
Qed.

(** X4: a reading at or below 3200 mV takes the controller down one tier per
    call, so Survival is reached after three calls from any tier and not
    before from Normal; a reading of 3800 mV or more takes it up to Normal
    in the same way. *)
Theorem get_tier_rate_limited (battery_mv : Z) (st : sched_state) :
  (battery_mv <= BATTERY_THRESHOLD_RESERVE_LOW ->
     tier_ord (fst (adaptive_scheduler_get_tier battery_mv st))
     = Z.min 3 (tier_ord (current_tier st) + 1)
     /\ current_tier (repeat_get_tier 3 battery_mv st) = POWER_TIER_SURVIVAL)
  /\ (BATTERY_THRESHOLD_NORMAL_HIGH <= battery_mv ->
        tier_ord (fst (adaptive_scheduler_get_tier battery_mv st))
        = Z.max 0 (tier_ord (current_tier st) - 1)
        /\ current_tier (repeat_get_tier 3 battery_mv st)
           = POWER_TIER_NORMAL).
Proof.
  unfold BATTERY_THRESHOLD_RESERVE_LOW, BATTERY_THRESHOLD_NORMAL_HIGH.
  destruct st as [cur].
  rewrite !repeat_get_tier_S. cbn [repeat_get_tier current_tier].
  split; intros Hmv; split.
  - destruct cur; rewrite get_tier_by_band; compare_cases; cbn;
      try reflexivity; lia.
  - destruct cur; rewrite !get_tier_by_band;
      compare_cases; cbn; rewrite ?get_tier_by_band;
      compare_cases; cbn; rewrite ?get_tier_by_band;
      compare_cases; cbn; try reflexivity; lia.
  - destruct cur; rewrite get_tier_by_band; compare_cases; cbn;
      try reflexivity; lia.
  - destruct cur; rewrite !get_tier_by_band;
      compare_cases; cbn; rewrite ?get_tier_by_band;
      compare_cases; cbn; rewrite ?get_tier_by_band;
      compare_cases; cbn; try reflexivity; lia.
Qed.

(** A flat battery (0 mV, what a failed ADC read reports) from Normal, and a
    full one from Survival. *)
Lemma get_tier_rate_limited_witness :
  (tier_ord (fst (adaptive_scheduler_get_tier 0 sched_init)) = 1
   /\ current_tier (repeat_get_tier 3 0 sched_init) = POWER_TIER_SURVIVAL)
  /\ (tier_ord (fst (adaptive_scheduler_get_tier 4100
                       (mkSched POWER_TIER_SURVIVAL))) = 2
      /\ current_tier (repeat_get_tier 3 4100 (mkSched POWER_TIER_SURVIVAL))
         = POWER_TIER_NORMAL).
Proof.
  split.
  - apply (proj1 (get_tier_rate_limited 0 sched_init)).
    unfold BATTERY_THRESHOLD_RESERVE_LOW. lia.
  - apply (proj2 (get_tier_rate_limited 4100 (mkSched POWER_TIER_SURVIVAL))).
    unfold BATTERY_THRESHOLD_NORMAL_HIGH. lia.
Defined.

(** ** Intervals per tier *)



(** ** Battery percentage *)

Lemma percentage_middle (v : Z) :
  BATTERY_VOLTAGE_MIN < v < BATTERY_VOLTAGE_MAX ->
  battery_monitor_get_percentage v = (v - 3500) * 100 / 700
  /\ 0 <= (v - 3500) * 100 / 700 <= 99.
Proof.
  unfold BATTERY_VOLTAGE_MIN, BATTERY_VOLTAGE_MAX. intros Hv.
  assert (Hq : 0 <= (v - 3500) * 100 / 700 <= 99).
  { split; [apply Z.div_pos; lia |].
    assert ((v - 3500) * 100 / 700 < 100)
      by (apply Z.div_lt_upper_bound; lia).
    lia. }
  split; [| exact Hq].
  unfold battery_monitor_get_percentage, BATTERY_VOLTAGE_MIN,
    BATTERY_VOLTAGE_MAX.
  destruct (Z.geb_spec v 4200); [lia |].
  destruct (Z.leb_spec v 3500); [lia |].
  change (4200 - 3500) with 700.
  rewrite Z.quot_div_nonneg by lia.
  apply u8_small. lia.
Qed.

(** X6: the battery percentage is within 0..100 and does not decrease when
    the voltage rises; it is 100 exactly from 4200 mV and 0 exactly up to
    3506 mV (the interpolation truncates). *)
Theorem battery_percentage_monotone (v1 v2 : Z) :
  v1 <= v2 ->
  0 <= battery_monitor_get_percentage v1
    <= battery_monitor_get_percentage v2
  /\ battery_monitor_get_percentage v2 <= 100
  /\ (battery_monitor_get_percentage v2 = 100 <-> BATTERY_VOLTAGE_MAX <= v2)
  /\ (battery_monitor_get_percentage v1 = 0 <-> v1 <= 3506).
Proof.
  intros Hle.
  assert (Hcases : forall v,
            (v <= 3500 /\ battery_monitor_get_percentage v = 0)
            \/ (4200 <= v /\ battery_monitor_get_percentage v = 100)
            \/ (3500 < v < 4200
                /\ battery_monitor_get_percentage v = (v - 3500) * 100 / 700
                /\ 0 <= (v - 3500) * 100 / 700 <= 99)).
  { intros v.
    destruct (Z_le_gt_dec v 3500) as [Hlo | Hlo].
    - left. split; [exact Hlo |].
      unfold battery_monitor_get_percentage, BATTERY_VOLTAGE_MIN,
        BATTERY_VOLTAGE_MAX.
      destruct (Z.geb_spec v 4200); [lia |].
      destruct (Z.leb_spec v 3500); [reflexivity | lia].
    - destruct (Z_le_gt_dec 4200 v) as [Hhi | Hhi].
      + right. left. split; [exact Hhi |].
        unfold battery_monitor_get_percentage, BATTERY_VOLTAGE_MAX.
        destruct (Z.geb_spec v 4200); [reflexivity | lia].
      + right. right. split; [lia |].
        apply percentage_middle.
        unfold BATTERY_VOLTAGE_MIN, BATTERY_VOLTAGE_MAX. lia. }
  unfold BATTERY_VOLTAGE_MAX.
  assert (Hmono : 3500 < v1 -> v2 < 4200 ->
                  (v1 - 3500) * 100 / 700 <= (v2 - 3500) * 100 / 700)
    by (intros; apply Z.div_le_mono; lia).
  assert (Hzero : 3500 < v1 < 4200 ->
                  ((v1 - 3500) * 100 / 700 = 0 <-> v1 <= 3506)).
  { intros Hv. split; intros H.
    - apply Z.div_small_iff in H; lia.
    - apply Z.div_small. lia. }
  destruct (Hcases v1) as [[H1 E1] | [[H1 E1] | [H1 [E1 R1]]]];
    destruct (Hcases v2) as [[H2 E2] | [[H2 E2] | [H2 [E2 R2]]]];
    rewrite E1, E2; lia.
Qed.

Lemma battery_percentage_monotone_witness :
  0 <= battery_monitor_get_percentage 3600
    <= battery_monitor_get_percentage 4199
  /\ battery_monitor_get_percentage 4199 <= 100
  /\ (battery_monitor_get_percentage 4199 = 100
      <-> BATTERY_VOLTAGE_MAX <= 4199)
  /\ (battery_monitor_get_percentage 3600 = 0 <-> 3600 <= 3506).
Proof.
  apply (battery_percentage_monotone 3600 4199). lia.
Defined.

(** ** The advertising payload *)

Lemma prepare_adv_data_never_fits_eq (sensor_payload : list Z)
    (st : adv_state) :
  fst (prepare_adv_data sensor_payload st) = - ENOMEM
  /\ adv_data_len (snd (prepare_adv_data sensor_payload st))
     = adv_data_len st.
Proof. split; reflexivity. Qed.

(** X7: [prepare_adv_data] fails on every call: after the flags and the
    name 16 bytes remain and the manufacturer block asks for 19, so it
    returns [-ENOMEM], leaves [adv_data_len] as it was, and [adv_data] holds
    the flags and the name followed by zeros. *)
Theorem prepare_adv_data_never_fits (sensor_payload : list Z)
    (st : adv_state) :
  prepare_adv_data sensor_payload st
  = (- ENOMEM,
     mkAdv ([2; BT_DATA_FLAGS; 0x06; 11; BT_DATA_NAME_COMPLETE]
            ++ adv_name ++ repeat 0 16)
           (adv_data_len st)).
Proof. reflexivity. Qed.

(** X8: [ble_advertiser_start] never reaches [bt_le_adv_start]: whatever
    the payload, the tier and the host's answer, it returns [-ENOMEM] and
    makes no request. *)
Theorem ble_advertiser_start_never_advertises
    (bt_le_adv_start : adv_request -> Z) (sensor_payload : list Z)
    (tier : power_tier_t) (st : adv_state) :
  let '(rc, _, requests) :=
    ble_advertiser_start bt_le_adv_start sensor_payload tier st in
  rc = - ENOMEM /\ requests = [].
Proof.
  unfold ble_advertiser_start.
  pose proof (prepare_adv_data_never_fits_eq sensor_payload st) as [Hrc _].
  destruct (prepare_adv_data sensor_payload st) as [rc st'].
  cbn [fst] in Hrc. rewrite Hrc. cbn. split; reflexivity.
Qed.

(** ** The clock: encoding, setting the time, the control register *)

Lemma checked_below (P : Z -> bool) (n : nat) :
  forallb P (map Z.of_nat (seq 0 n)) = true ->
  forall x, 0 <= x < Z.of_nat n -> P x = true.
Proof.
  intros Htable x Hx. rewrite forallb_forall in Htable. apply Htable.
  rewrite <- (Z2Nat.id x) by lia. apply in_map, in_seq. lia.
Qed.

Lemma u8_idem (x : Z) : u8 (u8 x) = u8 x.
Proof. unfold u8. apply Z.mod_mod. lia. Qed.

Lemma bin_to_bcd_byte (v : Z) : u8 (bin_to_bcd v) = bin_to_bcd v.
Proof. unfold bin_to_bcd. apply u8_idem. Qed.

Lemma bcd_decode_encode (v : Z) :
  0 <= v <= 99 -> bcd_to_bin (bin_to_bcd v) = v.
Proof.
  intros Hv. apply Z.eqb_eq.
  apply (checked_below (fun v => bcd_to_bin (bin_to_bcd v) =? v) 100);
    [exact bcd_round_trip_table | lia].
Qed.

(** X9: for 0..99 the encoder yields a valid decimal-coded byte: the high
    nibble is the tens digit and the low nibble the units digit. *)
Theorem bin_to_bcd_digits (v : Z) :
  0 <= v <= 99 ->
  bin_to_bcd v = 16 * (v / 10) + v mod 10
  /\ Z.shiftr (bin_to_bcd v) 4 = v / 10
  /\ Z.land (bin_to_bcd v) 0x0F = v mod 10
  /\ 0 <= v / 10 <= 9 /\ 0 <= v mod 10 <= 9.
Proof.
  intros Hv.
  assert (Hchk : ((bin_to_bcd v =? 16 * (v / 10) + v mod 10)
                  && (Z.shiftr (bin_to_bcd v) 4 =? v / 10)
                  && (Z.land (bin_to_bcd v) 0x0F =? v mod 10)
                  && (v / 10 <=? 9) && (v mod 10 <=? 9)) = true).
  { apply (checked_below
             (fun v => (bin_to_bcd v =? 16 * (v / 10) + v mod 10)
                       && (Z.shiftr (bin_to_bcd v) 4 =? v / 10)
                       && (Z.land (bin_to_bcd v) 0x0F =? v mod 10)
                       && (v / 10 <=? 9) && (v mod 10 <=? 9)) 100);
      [vm_compute; reflexivity | lia]. }
  repeat rewrite andb_true_iff in Hchk.
  destruct Hchk as ((((H1 & H2) & H3) & H4) & H5).
  apply Z.eqb_eq in H1, H2, H3. apply Z.leb_le in H4, H5.
  pose proof (Z.div_pos v 10 ltac:(lia) ltac:(lia)).
  pose proof (Z.mod_pos_bound v 10 ltac:(lia)).
  repeat split; try assumption; lia.
Qed.

Lemma bin_to_bcd_digits_witness :
  bin_to_bcd 59 = 16 * (59 / 10) + 59 mod 10
  /\ Z.shiftr (bin_to_bcd 59) 4 = 59 / 10
  /\ Z.land (bin_to_bcd 59) 0x0F = 59 mod 10
  /\ 0 <= 59 / 10 <= 9 /\ 0 <= 59 mod 10 <= 9.
Proof. apply (bin_to_bcd_digits 59). lia. Defined.

(** X10: the bytes [rv3028_set_time] builds for a valid time decode, with
    the masks of [rv3028_get_time], to the same time. *)
Theorem set_time_get_time_round_trip (t : rv3028_time) :
  0 <= tm_seconds t <= 59 -> 0 <= tm_minutes t <= 59 ->
  0 <= tm_hours t <= 23 -> 0 <= tm_weekday t <= 6 ->
  1 <= tm_date t <= 31 -> 1 <= tm_month t <= 12 ->
  2000 <= tm_year t <= 2099 ->
  time_of_regs (time_regs t) = t.
Proof.
  destruct t as [sec mnt hrs wd dt mon yr]. cbn [tm_seconds tm_minutes
    tm_hours tm_weekday tm_date tm_month tm_year].
  intros Hsec Hmnt Hhrs Hwd Hdt Hmon Hyr.
  unfold time_of_regs, time_regs, byte_at. cbn [nth tm_seconds tm_minutes
    tm_hours tm_weekday tm_date tm_month tm_year].
  rewrite !bin_to_bcd_byte.
  rewrite (proj1 (clock_fields_round_trip sec)) by assumption.
  rewrite (proj1 (clock_fields_round_trip mnt)) by assumption.
  rewrite (proj1 (proj2 (clock_fields_round_trip hrs))) by assumption.
  rewrite (proj1 (proj2 (proj2 (clock_fields_round_trip dt)))) by assumption.
  rewrite (proj2 (proj2 (proj2 (clock_fields_round_trip mon)))) by assumption.
  rewrite (u8_small (yr - 2000)) by lia.
  rewrite bcd_decode_encode by lia.
  assert (Hweek : Z.land (u8 wd) 7 = wd).
  { apply Z.eqb_eq.
    apply (checked_below (fun wd => Z.land (u8 wd) 7 =? wd) 7);
      [vm_compute; reflexivity | lia]. }
  rewrite Hweek.
  replace (2000 + (yr - 2000)) with yr by lia.
  unfold u16. rewrite Z.mod_small by lia. reflexivity.
Qed.

Lemma set_time_get_time_round_trip_witness :
  time_of_regs (time_regs (mkTime 59 58 23 6 31 12 2099))
  = mkTime 59 58 23 6 31 12 2099.
Proof.
  apply (set_time_get_time_round_trip (mkTime 59 58 23 6 31 12 2099));
    cbn; lia.
Defined.

Lemma rv3028_disable_alarm_interrupt_run (w : world) :
  rv3028_disable_alarm_interrupt w
  = (resp_ret (upcoming w 1),
     issue_all
       [ I2cWriteRead RV3028_I2C_ADDR [RV3028_REG_CONTROL2] 1;
         I2cWrite RV3028_I2C_ADDR
           [RV3028_REG_CONTROL2;
            u8 (Z.land (reg8_value (upcoming w 0))
                       (Z.lnot RV3028_CTRL2_AIE))] ] w).
Proof.
  unfold rv3028_disable_alarm_interrupt.
  rewrite (bind_run _ _ _ _ _ (rv3028_read_reg8_run _ w)).
  unfold rv3028_write_reg, i2c_write. rewrite upcoming_issue. reflexivity.
Qed.

Lemma rv3028_set_time_run (t : rv3028_time) (w : world) :
  let stop := u8 (Z.lor (reg8_value (upcoming w 0)) RV3028_CTRL2_STOP) in
  let halt :=
    [ I2cWriteRead RV3028_I2C_ADDR [RV3028_REG_CONTROL2] 1;
      I2cWrite RV3028_I2C_ADDR [RV3028_REG_CONTROL2; stop];
      I2cWrite RV3028_I2C_ADDR (time_regs t) ] in
  rv3028_set_time t w
  = if negb (resp_ret (upcoming w 2) =? 0)
    then (resp_ret (upcoming w 2), issue_all halt w)
    else (0,
          issue_all
            (halt ++ [ I2cWrite RV3028_I2C_ADDR
                         [RV3028_REG_CONTROL2;
                          u8 (Z.land stop (Z.lnot RV3028_CTRL2_STOP))] ]) w).
Proof.
  intros stop halt. unfold rv3028_set_time.
  rewrite (bind_run _ _ _ _ _ (rv3028_read_reg8_run _ w)).
  fold stop.
  unfold rv3028_write_reg, i2c_write, bind.
  rewrite !upcoming_issue.
  destruct (negb (resp_ret (upcoming w 2) =? 0)); reflexivity.
Qed.

Lemma rv3028_init_run (w : world) :
  rv3028_init true w
  = (0,
     issue_all
       [ I2cWriteRead RV3028_I2C_ADDR [RV3028_REG_STATUS] 1;
         I2cWriteRead RV3028_I2C_ADDR [RV3028_REG_CONTROL1] 1;
         I2cWriteRead RV3028_I2C_ADDR [RV3028_REG_CONTROL2] 1;
         I2cWrite RV3028_I2C_ADDR
           [RV3028_REG_CONTROL1;
            u8 (Z.lor (reg8_value (upcoming w 1)) 0x11)];
         I2cWrite RV3028_I2C_ADDR
           [RV3028_REG_CONTROL2;
            u8 (Z.land (reg8_value (upcoming w 2)) (Z.lnot 0x70))] ] w).
Proof.
  unfold rv3028_init. cbn [negb].
  do 3 rewrite (bind_run _ _ _ _ _ (rv3028_read_reg8_run _ _)).
  unfold rv3028_write_reg, i2c_write, bind, ret.
  rewrite !upcoming_issue. reflexivity.
Qed.

Lemma testbit_u8 (x i : Z) :
  Z.testbit (u8 x) i = (i <? 8) && Z.testbit x i.
Proof.
  unfold u8. change 256 with (2 ^ 8). apply Z.testbit_mod_pow2. lia.
Qed.

Lemma reg8_value_byte (r : bus_resp) : u8 (reg8_value r) = reg8_value r.
Proof.
  unfold reg8_value. destruct (negb (resp_ret r =? 0)); [reflexivity |].
  unfold byte_at. apply u8_idem.
Qed.

Lemma testbit_byte_high (b i : Z) : u8 b = b -> 8 <= i -> Z.testbit b i = false.
Proof.
  intros Hb Hi. rewrite <- Hb, testbit_u8.
  destruct (Z.ltb_spec i 8); [lia | reflexivity].
Qed.

(** The bits of [(uint8_t)(b | m)] and [(uint8_t)(b & ~m)] for bytes. *)
Lemma byte_or_bits (b m i : Z) :
  u8 b = b -> u8 m = m -> 0 <= i ->
  Z.testbit (u8 (Z.lor b m)) i = Z.testbit b i || Z.testbit m i.
Proof.
  intros Hb Hm Hi. rewrite testbit_u8, Z.lor_spec.
  destruct (Z.ltb_spec i 8); [reflexivity |].
  rewrite (testbit_byte_high b i), (testbit_byte_high m i) by assumption.
  reflexivity.
Qed.

Lemma byte_andnot_bits (b m i : Z) :
  u8 b = b -> 0 <= i ->
  Z.testbit (u8 (Z.land b (Z.lnot m))) i
  = Z.testbit b i && negb (Z.testbit m i).
Proof.
  intros Hb Hi. rewrite testbit_u8, Z.land_spec, Z.lnot_spec by assumption.
  destruct (Z.ltb_spec i 8); [reflexivity |].
  rewrite (testbit_byte_high b i) by assumption. reflexivity.
Qed.

Lemma bit_of_0x40 (i : Z) : Z.testbit 0x40 i = (6 =? i).
Proof. change 0x40 with (2 ^ 6). apply Z.pow2_bits_eqb. lia. Qed.

Lemma bit_of_0x08 (i : Z) : Z.testbit 0x08 i = (3 =? i).
Proof. change 0x08 with (2 ^ 3). apply Z.pow2_bits_eqb. lia. Qed.

Lemma bit_of_0x01 (i : Z) : Z.testbit 0x01 i = (0 =? i).
Proof. change 0x01 with (2 ^ 0). apply Z.pow2_bits_eqb. lia. Qed.

Lemma bit_of_0x11 (i : Z) : Z.testbit 0x11 i = (4 =? i) || (0 =? i).
Proof.
  change 0x11 with (Z.lor (2 ^ 4) (2 ^ 0)).
  rewrite Z.lor_spec, !Z.pow2_bits_eqb by lia. reflexivity.
Qed.

Lemma bit_of_0x70 (i : Z) :
  Z.testbit 0x70 i = (6 =? i) || (5 =? i) || (4 =? i).
Proof.
  change 0x70 with (Z.lor (Z.lor (2 ^ 6) (2 ^ 5)) (2 ^ 4)).
  rewrite !Z.lor_spec, !Z.pow2_bits_eqb by lia. reflexivity.
Qed.

(** X11: when the write of the time bytes fails, [rv3028_set_time] returns
    that status after three transfers, the last control register write
    being the one that set the stop bit: the clock is left stopped.  When it
    succeeds a fourth transfer clears the stop bit and the call returns 0,
    whatever became of the control register transfers. *)
Theorem set_time_failure_leaves_clock_stopped (t : rv3028_time) (w : world) :
  exists stop restart,
    Z.testbit stop 0 = true /\ Z.testbit restart 0 = false
    /\ (failed (upcoming w 2) ->
          rv3028_set_time t w
          = (resp_ret (upcoming w 2),
             issue_all
               [ I2cWriteRead RV3028_I2C_ADDR [RV3028_REG_CONTROL2] 1;
                 I2cWrite RV3028_I2C_ADDR [RV3028_REG_CONTROL2; stop];
                 I2cWrite RV3028_I2C_ADDR (time_regs t) ] w))
    /\ (resp_ret (upcoming w 2) = 0 ->
          rv3028_set_time t w
          = (0,
             issue_all
               [ I2cWriteRead RV3028_I2C_ADDR [RV3028_REG_CONTROL2] 1;
                 I2cWrite RV3028_I2C_ADDR [RV3028_REG_CONTROL2; stop];
                 I2cWrite RV3028_I2C_ADDR (time_regs t);
                 I2cWrite RV3028_I2C_ADDR [RV3028_REG_CONTROL2; restart] ]
               w)).
Proof.
  pose proof (rv3028_set_time_run t w) as Hrun. cbv zeta in Hrun.
  set (b := reg8_value (upcoming w 0)) in *.
  assert (Hb : u8 b = b) by apply reg8_value_byte.
  exists (u8 (Z.lor b RV3028_CTRL2_STOP)).
  exists (u8 (Z.land (u8 (Z.lor b RV3028_CTRL2_STOP))
                     (Z.lnot RV3028_CTRL2_STOP))).
  unfold RV3028_CTRL2_STOP in *.
  split; [| split; [| split]].
  - rewrite byte_or_bits by (reflexivity || assumption || lia).
    rewrite bit_of_0x01. apply orb_true_r.
  - rewrite byte_andnot_bits by (apply u8_idem || lia).
    rewrite bit_of_0x01. apply andb_false_r.
  - intros Hfail. rewrite Hrun.
    apply Z.eqb_neq in Hfail. rewrite Hfail. reflexivity.
  - intros Hok. rewrite Hrun, Hok. reflexivity.
Qed.

Lemma set_time_failure_leaves_clock_stopped_witness :
  exists stop restart,
    Z.testbit stop 0 = true /\ Z.testbit restart 0 = false
    /\ rv3028_set_time (mkTime 0 58 23 2 15 6 2024) time_read_fails_bus
       = (-5,
          issue_all
            [ I2cWriteRead RV3028_I2C_ADDR [RV3028_REG_CONTROL2] 1;
              I2cWrite RV3028_I2C_ADDR [RV3028_REG_CONTROL2; stop];
              I2cWrite RV3028_I2C_ADDR
                (time_regs (mkTime 0 58 23 2 15 6 2024)) ]
            time_read_fails_bus)
    /\ fst (rv3028_set_time (mkTime 0 58 23 2 15 6 2024) quiet_bus) = 0.
Proof.
  destruct (set_time_failure_leaves_clock_stopped
              (mkTime 0 58 23 2 15 6 2024) time_read_fails_bus)
    as (stop & restart & Hstop & Hrestart & Hfail & _).
  destruct (set_time_failure_leaves_clock_stopped
              (mkTime 0 58 23 2 15 6 2024) quiet_bus)
    as (stop' & restart' & _ & _ & _ & Hok).
  exists stop, restart.
  split; [exact Hstop | split; [exact Hrestart | split]].
  - apply Hfail. intros H. discriminate H.
  - rewrite (Hok eq_refl). reflexivity.
Defined.

(** X12: clearing the alarm flag and enabling or disabling the alarm
    interrupt each read the control register and write it back with one bit
    changed: bit 6 cleared, bit 3 set, bit 3 cleared; every other bit is
    written as it was read (as zero when the read failed). *)
Theorem control2_read_modify_write (w : world) :
  let b := reg8_value (upcoming w 0) in
  let read_op := I2cWriteRead RV3028_I2C_ADDR [RV3028_REG_CONTROL2] 1 in
  exists cleared enabled disabled,
    log (snd (rv3028_clear_alarm w))
    = log w ++ [read_op;
                I2cWrite RV3028_I2C_ADDR [RV3028_REG_CONTROL2; cleared]]
    /\ log (snd (rv3028_enable_alarm_interrupt w))
       = log w ++ [read_op;
                   I2cWrite RV3028_I2C_ADDR [RV3028_REG_CONTROL2; enabled]]
    /\ log (snd (rv3028_disable_alarm_interrupt w))
       = log w ++ [read_op;
                   I2cWrite RV3028_I2C_ADDR [RV3028_REG_CONTROL2; disabled]]
    /\ forall i, 0 <= i ->
         Z.testbit cleared i = (if 6 =? i then false else Z.testbit b i)
         /\ Z.testbit enabled i = (if 3 =? i then true else Z.testbit b i)
         /\ Z.testbit disabled i = (if 3 =? i then false else Z.testbit b i).
Proof.
  intros b read_op.
  assert (Hb : u8 b = b) by apply reg8_value_byte.
  exists (u8 (Z.land b (Z.lnot RV3028_CTRL2_AF))),
         (u8 (Z.lor b RV3028_CTRL2_AIE)),
         (u8 (Z.land b (Z.lnot RV3028_CTRL2_AIE))).
  rewrite rv3028_clear_alarm_run, rv3028_enable_alarm_interrupt_run,
    rv3028_disable_alarm_interrupt_run.
  cbn [snd]. rewrite !log_issue_all.
  split; [reflexivity | split; [reflexivity | split; [reflexivity |]]].
  intros i Hi. unfold RV3028_CTRL2_AF, RV3028_CTRL2_AIE.
  rewrite !byte_andnot_bits, byte_or_bits by (reflexivity || assumption).
  rewrite bit_of_0x40, bit_of_0x08.
  destruct (6 =? i), (3 =? i), (Z.testbit b i); repeat split; reflexivity.
Qed.

(** ** The wake alarm, beyond the formula *)

(** X13: whatever time was read and whatever the delay, the alarm's hours,
    minutes and seconds are a valid time of day. *)
Theorem wakeup_alarm_is_time_of_day (t : rv3028_time) (seconds_from_now : Z) :
  let alarm := wakeup_alarm t seconds_from_now in
  0 <= al_hours alarm <= 23
  /\ 0 <= al_minutes alarm <= 59
  /\ 0 <= al_seconds alarm <= 59.
Proof.
  unfold wakeup_alarm. cbn [al_hours al_minutes al_seconds].
  set (target := wakeup_target t seconds_from_now).
  pose proof (Z.mod_pos_bound (target / 3600) 24 ltac:(lia)).
  pose proof (Z.mod_pos_bound (target / 60) 60 ltac:(lia)).
  pose proof (Z.mod_pos_bound target 60 ltac:(lia)).
  rewrite !u8_small by lia. lia.
Qed.

(** X14: delays that differ by whole days program the same alarm (as long
    as [target_seconds] stays below 2^32): the alarm carries no day. *)
Theorem wakeup_alarm_ignores_whole_days (t : rv3028_time)
    (seconds_from_now days : Z) :
  let now := tm_hours t * 3600 + tm_minutes t * 60 + tm_seconds t in
  0 <= days -> 0 <= now + seconds_from_now ->
  now + seconds_from_now + 86400 * days < 4294967296 ->
  wakeup_alarm t (seconds_from_now + 86400 * days)
  = wakeup_alarm t seconds_from_now.
Proof.
  intros now Hdays Hlow Hhigh.
  unfold wakeup_alarm, wakeup_target. fold now.
  replace (now + (seconds_from_now + 86400 * days))
    with (now + seconds_from_now + 86400 * days) by lia.
  rewrite !u32_small by lia.
  set (target := now + seconds_from_now).
  assert (H60 : (target + 86400 * days) mod 60 = target mod 60).
  { replace (86400 * days) with (1440 * days * 60) by lia.
    apply Z.mod_add. lia. }
  assert (Hmin : ((target + 86400 * days) / 60) mod 60 = (target / 60) mod 60).
  { replace (86400 * days) with (1440 * days * 60) by lia.
    rewrite Z.div_add by lia.
    replace (1440 * days) with (24 * days * 60) by lia.
    apply Z.mod_add. lia. }
  assert (Hhrs : ((target + 86400 * days) / 3600) mod 24
                 = (target / 3600) mod 24).
  { replace (86400 * days) with (24 * days * 3600) by lia.
    rewrite Z.div_add by lia.
    replace (24 * days) with (days * 24) by lia.
    apply Z.mod_add. lia. }
  rewrite H60, Hmin, Hhrs. reflexivity.
Qed.

(** Five minutes from 12:00:00 and a day and five minutes from it. *)
Lemma wakeup_alarm_ignores_whole_days_witness :
  wakeup_alarm (mkTime 0 0 12 2 15 6 2024) (300 + 86400 * 1)
  = wakeup_alarm (mkTime 0 0 12 2 15 6 2024) 300.
Proof.
  apply (wakeup_alarm_ignores_whole_days (mkTime 0 0 12 2 15 6 2024) 300 1);
    cbn; lia.
Defined.

(** X15: every tier's wake interval is a whole number of minutes, so the
    alarm programmed for it has the seconds of the time read (reduced
    modulo 60), for any register contents. *)
Theorem tier_alarm_keeps_seconds (data : list Z) (tier : power_tier_t) :
  let t := time_of_regs data in
  al_seconds (wakeup_alarm t (adaptive_scheduler_get_interval tier / 1000))
  = tm_seconds t mod 60.
Proof.
  intros t.
  destruct (time_of_regs_range data) as (Hs & Hm & Hh). fold t in Hs, Hm, Hh.
  unfold wakeup_alarm, wakeup_target. cbn [al_seconds].
  assert (Hk : exists k, 0 <= k <= 60
                         /\ adaptive_scheduler_get_interval tier / 1000
                            = k * 60).
  { destruct tier; [exists 5 | exists 15 | exists 30 | exists 60];
      split; try lia; reflexivity. }
  destruct Hk as (k & Hk & ->).
  rewrite u32_small by lia.
  replace (tm_hours t * 3600 + tm_minutes t * 60 + tm_seconds t + k * 60)
    with (tm_seconds t + (tm_hours t * 60 + tm_minutes t + k) * 60) by lia.
  rewrite Z.mod_add by lia.
  apply u8_small.
  pose proof (Z.mod_pos_bound (tm_seconds t) 60 ltac:(lia)). lia.
Qed.

(** ** Bring-up of the clock and of the scheduler *)

(** X16: with the bus device not ready [rv3028_init] returns [-ENODEV]
    without a transfer; with it ready the call returns 0 whatever the five
    transfers answered, having written control 1 with bits 4 and 0 set and
    control 2 with bits 6, 5 and 4 cleared, the other bits as read. *)
Theorem rv3028_init_ignores_transfer_failures (ready : bool) (w : world) :
  (ready = false -> rv3028_init ready w = (- ENODEV, w))
  /\ (ready = true ->
        fst (rv3028_init ready w) = 0
        /\ exists ctrl1 ctrl2,
             log (snd (rv3028_init ready w))
             = log w
               ++ [ I2cWriteRead RV3028_I2C_ADDR [RV3028_REG_STATUS] 1;
                    I2cWriteRead RV3028_I2C_ADDR [RV3028_REG_CONTROL1] 1;
                    I2cWriteRead RV3028_I2C_ADDR [RV3028_REG_CONTROL2] 1;
                    I2cWrite RV3028_I2C_ADDR [RV3028_REG_CONTROL1; ctrl1];
                    I2cWrite RV3028_I2C_ADDR [RV3028_REG_CONTROL2; ctrl2] ]
             /\ forall i, 0 <= i ->
                  Z.testbit ctrl1 i
                  = Z.testbit (reg8_value (upcoming w 1)) i
                    || (4 =? i) || (0 =? i)
                  /\ Z.testbit ctrl2 i
                     = Z.testbit (reg8_value (upcoming w 2)) i
                       && negb ((6 =? i) || (5 =? i) || (4 =? i))).
Proof.
  split; intros ->; [reflexivity |].
  rewrite rv3028_init_run. cbn [fst snd]. split; [reflexivity |].
  exists (u8 (Z.lor (reg8_value (upcoming w 1)) 0x11)),
         (u8 (Z.land (reg8_value (upcoming w 2)) (Z.lnot 0x70))).
  rewrite log_issue_all. split; [reflexivity |].
  intros i Hi.
  rewrite byte_or_bits, byte_andnot_bits
    by (reflexivity || apply reg8_value_byte || assumption).
  rewrite bit_of_0x11, bit_of_0x70, orb_assoc. split; reflexivity.
Qed.

Lemma rv3028_init_ignores_transfer_failures_witness :
  rv3028_init false dead_bus = (-19, dead_bus)
  /\ fst (rv3028_init true dead_bus) = 0.
Proof.
  split.
  - apply (proj1 (rv3028_init_ignores_transfer_failures false dead_bus)).
    reflexivity.
  - apply (proj2 (rv3028_init_ignores_transfer_failures true dead_bus)).
    reflexivity.
Defined.

(** X17: the result of [adaptive_scheduler_init] does not depend on the bus:
    it is [-ENODEV] unless both devices are ready, and then the status of
    the pin configuration. *)
Theorem adaptive_scheduler_init_result (i2c_ready gpio_ready : bool)
    (gpio_configure_rc : Z) (w : world) :
  fst (adaptive_scheduler_init i2c_ready gpio_ready gpio_configure_rc w)
  = (if i2c_ready && gpio_ready then gpio_configure_rc else - ENODEV)
  /\ length (log (snd (adaptive_scheduler_init i2c_ready gpio_ready
                         gpio_configure_rc w)))
     = (length (log w) + (if i2c_ready then 5 else 0))%nat.
Proof.
  unfold adaptive_scheduler_init.
  destruct i2c_ready.
  - rewrite (bind_run _ _ _ _ _ (rv3028_init_run w)). cbn [negb Z.eqb].
    destruct gpio_ready; cbn [negb andb].
    + destruct (gpio_configure_rc =? 0) eqn:E; cbn [negb ret fst snd].
      * apply Z.eqb_eq in E. rewrite E, log_issue_all, length_app.
        split; reflexivity.
      * rewrite log_issue_all, length_app. split; reflexivity.
    + cbn [ret fst snd]. rewrite log_issue_all, length_app.
      split; reflexivity.
  - cbn. split; [reflexivity | lia].
Qed.

(** X18: a successful clock read is accepted whatever the bytes: the fields
    are only masked and decoded, so they are bounded by 85 (seconds,
    minutes), 45 (hours, date), 7 (weekday), 25 (month) and 2165 (year),
    and need not be a valid time. *)
Theorem get_time_accepts_any_bytes (w : world) :
  resp_ret (upcoming w 0) = 0 ->
  exists t,
    fst (rv3028_get_time w) = Ok t
    /\ 0 <= tm_seconds t <= 85 /\ 0 <= tm_minutes t <= 85
    /\ 0 <= tm_hours t <= 45 /\ 0 <= tm_weekday t <= 7
    /\ 0 <= tm_date t <= 45 /\ 0 <= tm_month t <= 25
    /\ 2000 <= tm_year t <= 2165.
Proof.
  intros Hok. rewrite rv3028_get_time_run, Hok. cbn [negb Z.eqb fst].
  eexists. split; [reflexivity |].
  assert (Hbyte : forall (P : Z -> bool),
            forallb P (map Z.of_nat (seq 0 256)) = true ->
            forall i, P (byte_at (resp_data (upcoming w 0)) i) = true).
  { intros P Htable i. apply (checked_below P 256 Htable).
    unfold byte_at. pose proof (u8_range (nth i (resp_data (upcoming w 0)) 0)).
    change (Z.of_nat 256) with 256. lia. }
  cbn [time_of_regs tm_seconds tm_minutes tm_hours tm_weekday tm_date
       tm_month tm_year].
  pose proof (Hbyte (fun b => (0 <=? bcd_to_bin (Z.land b 0x7F))
                              && (bcd_to_bin (Z.land b 0x7F) <=? 85))
                ltac:(vm_compute; reflexivity)) as H7F.
  pose proof (Hbyte (fun b => (0 <=? bcd_to_bin (Z.land b 0x3F))
                              && (bcd_to_bin (Z.land b 0x3F) <=? 45))
                ltac:(vm_compute; reflexivity)) as H3F.
  pose proof (Hbyte (fun b => (0 <=? bcd_to_bin (Z.land b 0x1F))
                              && (bcd_to_bin (Z.land b 0x1F) <=? 25))
                ltac:(vm_compute; reflexivity)) as H1F.
  pose proof (Hbyte (fun b => (0 <=? Z.land b 0x07) && (Z.land b 0x07 <=? 7))
                ltac:(vm_compute; reflexivity)) as H07.
  pose proof (Hbyte (fun b => (2000 <=? u16 (2000 + bcd_to_bin b))
                              && (u16 (2000 + bcd_to_bin b) <=? 2165))
                ltac:(vm_compute; reflexivity)) as Hyr.
  cbv beta in H7F, H3F, H1F, H07, Hyr.
  pose proof (H7F 0%nat) as Hs. pose proof (H7F 1%nat) as Hm.
  pose proof (H3F 2%nat) as Hh. pose proof (H07 3%nat) as Hw.
  pose proof (H3F 4%nat) as Hd. pose proof (H1F 5%nat) as Hmo.
  pose proof (Hyr 6%nat) as Hy.
  apply andb_true_iff in Hs, Hm, Hh, Hw, Hd, Hmo, Hy.
  rewrite !Z.leb_le in Hs, Hm, Hh, Hw, Hd, Hmo, Hy.
  repeat split; tauto.
Qed.

(** All-ones registers are read as 85 s, 85 min, 45 h. *)
Lemma get_time_accepts_any_bytes_witness :
  exists t,
    fst (rv3028_get_time
           (scripted [mkResp 0 [0xFF; 0xFF; 0xFF; 0xFF; 0xFF; 0xFF; 0xFF]]))
    = Ok t
    /\ 0 <= tm_seconds t <= 85 /\ 0 <= tm_minutes t <= 85
    /\ 0 <= tm_hours t <= 45 /\ 0 <= tm_weekday t <= 7
    /\ 0 <= tm_date t <= 45 /\ 0 <= tm_month t <= 25
    /\ 2000 <= tm_year t <= 2165.
Proof.
  apply (get_time_accepts_any_bytes
           (scripted [mkResp 0 [0xFF; 0xFF; 0xFF; 0xFF; 0xFF; 0xFF; 0xFF]])).
  reflexivity.
Defined.

(** ** The sensor: bring-up, raw samples, failures *)

Lemma lor_pow2_add (hi lo n : Z) :
  0 <= n -> 0 <= lo < 2 ^ n -> Z.lor (hi * 2 ^ n) lo = hi * 2 ^ n + lo.
Proof.
  intros Hn Hlo.
  assert (Hdisj : Z.land (hi * 2 ^ n) lo = 0).
  { apply Z.bits_inj'. intros i Hi.
    rewrite Z.land_spec, Z.bits_0.
    destruct (Z.lt_ge_cases i n) as [Hlt | Hge].
    - rewrite Z.mul_pow2_bits_low by assumption. reflexivity.
    - rewrite <- (Z.mod_small lo (2 ^ n)) by assumption.
      rewrite Z.mod_pow2_bits_high by lia. apply andb_false_r. }
  pose proof (Z.add_lor_land (hi * 2 ^ n) lo) as Hadd.
  rewrite Hdisj in Hadd. lia.
Qed.

Lemma byte_at_range (data : list Z) (i : nat) : 0 <= byte_at data i <= 255.
Proof. apply u8_range. Qed.

Lemma s16_range (x : Z) : -32768 <= s16 x <= 32767.
Proof. unfold s16. pose proof (Z.mod_pos_bound (x + 32768) 65536). lia. Qed.

Lemma s16_small (x : Z) : -32768 <= x <= 32767 -> s16 x = x.
Proof. intros H. unfold s16. rewrite Z.mod_small; lia. Qed.

Lemma reg8_value_range (r : bus_resp) : 0 <= reg8_value r <= 255.
Proof. rewrite <- reg8_value_byte. apply u8_range. Qed.

Lemma reg16_value_range (r : bus_resp) : 0 <= reg16_value r <= 65535.
Proof.
  unfold reg16_value. destruct (negb (resp_ret r =? 0)); [lia |].
  unfold u16.
  pose proof (Z.mod_pos_bound
                (Z.lor (Z.shiftl (byte_at (resp_data r) 0) 8)
                       (byte_at (resp_data r) 1)) 65536).
  lia.
Qed.

Lemma low_nibble_range (x : Z) : 0 <= Z.land x 0x0F <= 15.
Proof.
  change (Z.land x 0x0F) with (Z.land x (Z.ones 4)).
  rewrite Z.land_ones by lia.
  pose proof (Z.mod_pos_bound x (2 ^ 4)). change (2 ^ 4) with 16 in *. lia.
Qed.

Lemma packed_word_range (msb nibble : Z) :
  0 <= msb <= 255 -> 0 <= nibble <= 15 ->
  s16 (Z.lor (Z.shiftl msb 4) nibble) = msb * 16 + nibble.
Proof.
  intros Hm Hn. rewrite Z.shiftl_mul_pow2 by lia.
  rewrite lor_pow2_add by (change (2 ^ 4) with 16; lia).
  change (2 ^ 4) with 16. apply s16_small. lia.
Qed.

(** X19: the calibration record after a load is within the ranges of its C
    fields, and the two packed humidity words are 12-bit and never
    negative: [dig_H4] and [dig_H5] lie in 0..4095. *)
Theorem loaded_calibration_ranges (w : world) :
  let c := snd (fst (bme280_read_calibration_data w)) in
  (0 <= dig_T1 c <= 65535 /\ 0 <= dig_P1 c <= 65535)
  /\ Forall (fun field => -32768 <= field c <= 32767)
            [dig_T2; dig_T3; dig_P2; dig_P3; dig_P4; dig_P5; dig_P6;
             dig_P7; dig_P8; dig_P9; dig_H2]
  /\ (0 <= dig_H1 c <= 255 /\ 0 <= dig_H3 c <= 255)
  /\ (0 <= dig_H4 c <= 4095 /\ 0 <= dig_H5 c <= 4095)
  /\ -128 <= dig_H6 c <= 127.
Proof.
  rewrite bme280_read_calibration_data_run. cbv zeta. cbn [fst snd].
  cbn [dig_T1 dig_T2 dig_T3 dig_P1 dig_P2 dig_P3 dig_P4 dig_P5
       dig_P6 dig_P7 dig_P8 dig_P9 dig_H1 dig_H2 dig_H3 dig_H4
       dig_H5 dig_H6].
  split; [split; apply reg16_value_range |].
  split; [repeat apply Forall_cons; try apply Forall_nil; apply s16_range |].
  split; [split; apply reg8_value_range |].
  split; [split |].
  - unfold h4_of.
    pose proof (reg8_value_range (upcoming w 15)).
    pose proof (low_nibble_range (reg8_value (upcoming w 16))).
    rewrite packed_word_range by assumption. lia.
  - unfold h5_of.
    pose proof (reg8_value_range (upcoming w 17)).
    pose proof (low_nibble_range (Z.shiftr (reg8_value (upcoming w 18)) 4)).
    rewrite packed_word_range by assumption. lia.
  - unfold s8.
    pose proof (Z.mod_pos_bound (reg8_value (upcoming w 19) + 128) 256).
    lia.
Qed.

(** X20: the raw sample taken from the eight data bytes: pressure and
    temperature are the 20-bit numbers byte * 4096 + byte * 16 + top nibble
    of the third byte, humidity is the 16-bit number msb * 256 + lsb. *)
Theorem raw_sample_extraction (raw_data : list Z) :
  let b i := byte_at raw_data i in
  adc_P_of raw_data = b 0%nat * 4096 + b 1%nat * 16 + b 2%nat / 16
  /\ adc_T_of raw_data = b 3%nat * 4096 + b 4%nat * 16 + b 5%nat / 16
  /\ adc_H_of raw_data = b 6%nat * 256 + b 7%nat
  /\ 0 <= adc_P_of raw_data < 1048576
  /\ 0 <= adc_T_of raw_data < 1048576
  /\ 0 <= adc_H_of raw_data < 65536.
Proof.
  intros b.
  assert (H20 : forall x y z,
            0 <= x <= 255 -> 0 <= y <= 255 -> 0 <= z <= 255 ->
            Z.lor (Z.lor (shl32 x 12) (shl32 y 4)) (asr32 z 4)
            = x * 4096 + y * 16 + z / 16
            /\ 0 <= x * 4096 + y * 16 + z / 16 < 1048576).
  { intros x y z Hx Hy Hz.
    assert (Hq : 0 <= z / 16 <= 15).
    { split; [apply Z.div_pos; lia |].
      assert (z / 16 < 16) by (apply Z.div_lt_upper_bound; lia). lia. }
    unfold shl32, asr32.
    rewrite !Z.shiftl_mul_pow2, Z.shiftr_div_pow2 by lia.
    change (2 ^ 12) with 4096. change (2 ^ 4) with 16.
    rewrite !s32_small by lia.
    replace (x * 4096) with (x * 2 ^ 12) by reflexivity.
    rewrite lor_pow2_add by (change (2 ^ 12) with 4096; lia).
    change (2 ^ 12) with 4096.
    replace (x * 4096 + y * 16) with ((x * 256 + y) * 2 ^ 4)
      by (change (2 ^ 4) with 16; lia).
    rewrite lor_pow2_add by (change (2 ^ 4) with 16; lia).
    change (2 ^ 4) with 16. lia. }
  assert (H16 : forall x y,
            0 <= x <= 255 -> 0 <= y <= 255 ->
            Z.lor (shl32 x 8) y = x * 256 + y).
  { intros x y Hx Hy. unfold shl32.
    rewrite Z.shiftl_mul_pow2 by lia. change (2 ^ 8) with 256.
    rewrite s32_small by lia.
    replace (x * 256) with (x * 2 ^ 8) by reflexivity.
    rewrite lor_pow2_add by (change (2 ^ 8) with 256; lia).
    reflexivity. }
  pose proof (byte_at_range raw_data 0) as H0.
  pose proof (byte_at_range raw_data 1) as H1.
  pose proof (byte_at_range raw_data 2) as H2.
  pose proof (byte_at_range raw_data 3) as H3.
  pose proof (byte_at_range raw_data 4) as H4.
  pose proof (byte_at_range raw_data 5) as H5.
  pose proof (byte_at_range raw_data 6) as H6.
  pose proof (byte_at_range raw_data 7) as H7.
  unfold adc_P_of, adc_T_of, adc_H_of. fold (b 0%nat) (b 1%nat) (b 2%nat)
    (b 3%nat) (b 4%nat) (b 5%nat) (b 6%nat) (b 7%nat) in *.
  destruct (H20 _ _ _ H0 H1 H2) as [EP RP].
  destruct (H20 _ _ _ H3 H4 H5) as [ET RT].
  rewrite EP, ET, (H16 _ _ H6 H7).
  repeat split; lia.
Qed.

(** X21: a failed trigger write ends [bme280_read_forced] before the data
    registers are read, a failed data read ends it after two transfers, and
    whatever fails is reported as [-EIO], never as the status the bus
    gave. *)
Theorem read_forced_failures (c : bme280_calib_data) (w : world) :
  let trigger := I2cWrite BME280_I2C_ADDR [BME280_REG_CTRL_MEAS; 0x25] in
  let fetch := I2cWriteRead BME280_I2C_ADDR [BME280_REG_PRESS_MSB] 8 in
  (failed (upcoming w 0) ->
     bme280_read_forced c w = (Fail (- EIO), issue trigger w))
  /\ (resp_ret (upcoming w 0) = 0 -> failed (upcoming w 1) ->
        bme280_read_forced c w = (Fail (- EIO), issue_all [trigger; fetch] w))
  /\ (forall rc, fst (bme280_read_forced c w) = Fail rc -> rc = - EIO).
Proof.
  intros trigger fetch. rewrite bme280_read_forced_run. cbv zeta.
  fold trigger fetch. unfold failed.
  split; [| split].
  - intros H. apply Z.eqb_neq in H. rewrite H. reflexivity.
  - intros H0 H1. apply Z.eqb_neq in H1. rewrite H0, H1. reflexivity.
  - intros rc.
    destruct (negb (resp_ret (upcoming w 0) =? 0)); cbn [fst];
      [intros H; injection H as <-; reflexivity |].
    destruct (negb (resp_ret (upcoming w 1) =? 0));
      [intros H; injection H as <-; reflexivity |].
    destruct (compensate_cases c (resp_data (upcoming w 1)))
      as [[_ Hc] | [_ [p Hc]]]; rewrite Hc; intros H;
      [injection H as <-; reflexivity | discriminate H].
Qed.

Lemma read_forced_failures_witness :
  bme280_read_forced sample_calib dead_bus
  = (Fail (-5),
     issue (I2cWrite BME280_I2C_ADDR [BME280_REG_CTRL_MEAS; 0x25]) dead_bus)
  /\ fst (bme280_read_forced sample_calib
            (scripted [mkResp 0 []; mkResp (-121) []])) = Fail (-5).
Proof.
  split.
  - apply (proj1 (read_forced_failures sample_calib dead_bus)).
    intros H. discriminate H.
  - rewrite (proj1 (proj2 (read_forced_failures sample_calib
                             (scripted [mkResp 0 []; mkResp (-121) []])))
               eq_refl ltac:(intros H; discriminate H)).
    reflexivity.
Defined.

Lemma upcoming_issue_all (ops : list bus_op) (w : world) (k : nat) :
  upcoming (issue_all ops w) k = upcoming w (length ops + k).
Proof.
  revert w. induction ops as [| op ops IH]; intros w; [reflexivity |].
  unfold issue_all in *. cbn [fold_left length]. rewrite IH, upcoming_issue.
  reflexivity.
Qed.

Lemma issue_all_app (ops ops' : list bus_op) (w : world) :
  issue_all ops' (issue_all ops w) = issue_all (ops ++ ops') w.
Proof. unfold issue_all. symmetry. apply fold_left_app. Qed.

Lemma bme280_init_run (c0 : bme280_calib_data) (w : world) :
  let chip := I2cWriteRead BME280_I2C_ADDR [BME280_REG_CHIP_ID] 1 in
  let humidity_setup := I2cWrite BME280_I2C_ADDR [BME280_REG_CTRL_HUM; 0x01] in
  let forced_setup := I2cWrite BME280_I2C_ADDR [BME280_REG_CTRL_MEAS; 0x25] in
  let c := snd (fst (bme280_read_calibration_data (issue chip w))) in
  bme280_init true c0 w
  = if negb (reg8_value (upcoming w 0) =? 0x60)
    then ((- ENODEV, c0), issue chip w)
    else if negb (resp_ret (upcoming w 21) =? 0)
    then ((- EIO, c),
          issue_all (chip :: calibration_ops ++ [humidity_setup]) w)
    else if negb (resp_ret (upcoming w 22) =? 0)
    then ((- EIO, c),
          issue_all (chip :: calibration_ops
                     ++ [humidity_setup; forced_setup]) w)
    else ((0, c),
          issue_all (chip :: calibration_ops
                     ++ [humidity_setup; forced_setup]) w).
Proof.
  intros chip humidity_setup forced_setup c.
  unfold bme280_init. cbn [negb].
  rewrite (bind_run _ _ _ _ _ (bme280_read_reg8_run _ w)).
  fold chip.
  destruct (negb (reg8_value (upcoming w 0) =? 0x60)); [reflexivity |].
  pose proof (bme280_read_calibration_data_run (issue chip w)) as Hload.
  cbv zeta in Hload.
  assert (Hc : bme280_read_calibration_data (issue chip w)
               = ((0, c), issue_all calibration_ops (issue chip w))).
  { unfold c. rewrite Hload. reflexivity. }
  rewrite (bind_run _ _ _ _ _ Hc). cbn [negb Z.eqb].
  unfold bme280_write_reg, i2c_write, bind, ret.
  replace (upcoming (issue_all calibration_ops (issue chip w)) 0)
    with (upcoming w 21)
    by (rewrite upcoming_issue_all, upcoming_issue; reflexivity).
  change (issue chip w) with (issue_all [chip] w).
  destruct (negb (resp_ret (upcoming w 21) =? 0)).
  - fold humidity_setup.
    change (issue humidity_setup ?x) with (issue_all [humidity_setup] x).
    rewrite !issue_all_app. reflexivity.
  - cbv beta.
    change (I2cWrite BME280_I2C_ADDR
              [BME280_REG_CTRL_MEAS;
               Z.lor (Z.lor BME280_CTRL_MEAS_OSRS_T_1X
                            BME280_CTRL_MEAS_OSRS_P_1X)
                     BME280_CTRL_MEAS_MODE_FORCED]) with forced_setup.
    change (I2cWrite BME280_I2C_ADDR
              [BME280_REG_CTRL_HUM; BME280_CTRL_HUM_OSRS_H_1X])
      with humidity_setup.
    change (issue forced_setup ?x) with (issue_all [forced_setup] x).
    change (issue humidity_setup ?x) with (issue_all [humidity_setup] x).
    rewrite !issue_all_app, <- ?app_assoc.
    rewrite upcoming_issue_all.
    change (length ([chip] ++ calibration_ops ++ [humidity_setup]) + 0)%nat
      with 22%nat.
    destruct (negb (resp_ret (upcoming w 22) =? 0)); reflexivity.
Qed.

(** X22: [bme280_init] returns 0 exactly when the device is ready, the chip
    identity register reads 0x60 and the two configuration writes succeed;
    failed calibration reads do not make it fail.  A wrong or unreadable
    identity gives [-ENODEV] after that single transfer and leaves the
    calibration record alone; on success the 23 transfers are the identity
    read, the twenty calibration reads, the humidity control write and then
    the measurement control write. *)
Theorem bme280_init_outcomes (ready : bool) (c0 : bme280_calib_data)
    (w : world) :
  let run := bme280_init ready c0 w in
  let chip := I2cWriteRead BME280_I2C_ADDR [BME280_REG_CHIP_ID] 1 in
  (fst (fst run) = 0
   <-> ready = true /\ reg8_value (upcoming w 0) = 0x60
       /\ resp_ret (upcoming w 21) = 0 /\ resp_ret (upcoming w 22) = 0)
  /\ (ready = true -> reg8_value (upcoming w 0) <> 0x60 ->
        run = ((- ENODEV, c0), issue chip w))
  /\ (ready = true -> failed (upcoming w 0) -> fst (fst run) = - ENODEV)
  /\ (fst (fst run) = 0 ->
        log (snd run)
        = log w ++ chip :: calibration_ops
                ++ [ I2cWrite BME280_I2C_ADDR [BME280_REG_CTRL_HUM; 0x01];
                     I2cWrite BME280_I2C_ADDR [BME280_REG_CTRL_MEAS; 0x25] ]).
Proof.
  intros run chip. unfold run.
  destruct ready.
  2:{ cbn. repeat split; try discriminate; intros H;
        try discriminate H; destruct H as [H _]; discriminate H. }
  rewrite bme280_init_run. cbv zeta. fold chip.
  destruct (reg8_value (upcoming w 0) =? 0x60) eqn:Eid; cbn [negb].
  - apply Z.eqb_eq in Eid.
    destruct (resp_ret (upcoming w 21) =? 0) eqn:E21; cbn [negb].
    + apply Z.eqb_eq in E21.
      destruct (resp_ret (upcoming w 22) =? 0) eqn:E22; cbn [negb fst snd].
      * apply Z.eqb_eq in E22.
        split; [tauto |]. split; [intros _ H; contradiction |].
        split.
        -- intros _ Hfail. apply reg8_value_failed in Hfail.
           rewrite Hfail in Eid. discriminate Eid.
        -- intros _. apply log_issue_all.
      * apply Z.eqb_neq in E22.
        split; [split; [discriminate | tauto] |].
        split; [intros _ H; contradiction |].
        split; [| discriminate].
        intros _ Hfail. apply reg8_value_failed in Hfail.
        rewrite Hfail in Eid. discriminate Eid.
    + apply Z.eqb_neq in E21. cbn [fst snd].
      split; [split; [discriminate | tauto] |].
      split; [intros _ H; contradiction |].
      split; [| discriminate].
      intros _ Hfail. apply reg8_value_failed in Hfail.
      rewrite Hfail in Eid. discriminate Eid.
  - apply Z.eqb_neq in Eid. cbn [fst snd].
    split; [split; [discriminate | tauto] |].
    split; [reflexivity |].
    split; [reflexivity | discriminate].
Qed.

(** A sensor that answers 0x60 and acknowledges everything, and a bus with
    nothing on it. *)
Lemma bme280_init_outcomes_witness :
  fst (fst (bme280_init true zero_calib (scripted [mkResp 0 [0x60]]))) = 0
  /\ bme280_init true sample_calib dead_bus
     = ((-19, sample_calib),
        issue (I2cWriteRead BME280_I2C_ADDR [BME280_REG_CHIP_ID] 1) dead_bus).
Proof.
  split.
  - apply (proj1 (bme280_init_outcomes true zero_calib
                    (scripted [mkResp 0 [0x60]]))).
    repeat split; reflexivity.
  - apply (proj1 (proj2 (bme280_init_outcomes true sample_calib dead_bus)));
      [reflexivity | intros H; discriminate H].
Defined.

(** ** Sequences of readings and short intervals *)

(** X23: readings that stay inside the band of the stored tier never change
    it, however many there are: above 3600 mV for Normal, strictly between
    3400 and 3800 for Conserve, strictly between 3200 and 3600 for Reserve,
    below 3400 for Survival.  The bands of neighbouring tiers overlap, so
    noise inside the overlap moves neither of them. *)
Theorem readings_in_band_keep_tier (readings : list Z) (cur : power_tier_t) :
  Forall (fun battery_mv =>
            match cur with
            | POWER_TIER_NORMAL => BATTERY_THRESHOLD_NORMAL_LOW < battery_mv
            | POWER_TIER_CONSERVE =>
                BATTERY_THRESHOLD_CONSERVE_LOW < battery_mv
                  < BATTERY_THRESHOLD_NORMAL_HIGH
            | POWER_TIER_RESERVE =>
                BATTERY_THRESHOLD_RESERVE_LOW < battery_mv
                  < BATTERY_THRESHOLD_CONSERVE_HIGH
            | POWER_TIER_SURVIVAL =>
                battery_mv < BATTERY_THRESHOLD_RESERVE_HIGH
            end) readings ->
  run_readings readings (mkSched cur) = repeat cur (length readings).
Proof.
  unfold BATTERY_THRESHOLD_NORMAL_HIGH, BATTERY_THRESHOLD_NORMAL_LOW,
    BATTERY_THRESHOLD_CONSERVE_HIGH, BATTERY_THRESHOLD_CONSERVE_LOW,
    BATTERY_THRESHOLD_RESERVE_HIGH, BATTERY_THRESHOLD_RESERVE_LOW.
  induction readings as [| mv rest IH]; intros Hband; [reflexivity |].
  inversion Hband as [| x l Hmv Hrest]; subst.
  cbn [run_readings length repeat].
  rewrite (surjective_pairing
             (adaptive_scheduler_get_tier mv (mkSched cur))).
  rewrite get_tier_stores_result.
  assert (Hkeep : fst (adaptive_scheduler_get_tier mv (mkSched cur)) = cur).
  { rewrite get_tier_by_band.
    destruct cur; compare_cases; try reflexivity; lia. }
  rewrite Hkeep, (IH Hrest). reflexivity.
Qed.

(** Noise between 3600 and 3800 mV moves neither Normal nor Conserve. *)
Lemma readings_in_band_keep_tier_witness :
  run_readings [3700; 3610; 3790; 3650] (mkSched POWER_TIER_NORMAL)
  = repeat POWER_TIER_NORMAL 4
  /\ run_readings [3700; 3610; 3790; 3650] (mkSched POWER_TIER_CONSERVE)
     = repeat POWER_TIER_CONSERVE 4.
Proof.
  split.
  - apply (readings_in_band_keep_tier [3700; 3610; 3790; 3650]
             POWER_TIER_NORMAL).
    unfold BATTERY_THRESHOLD_NORMAL_LOW.
    repeat apply Forall_cons; try apply Forall_nil; lia.
  - apply (readings_in_band_keep_tier [3700; 3610; 3790; 3650]
             POWER_TIER_CONSERVE).
    unfold BATTERY_THRESHOLD_CONSERVE_LOW, BATTERY_THRESHOLD_NORMAL_HIGH.
    repeat apply Forall_cons; try apply Forall_nil; lia.
Defined.

(** X24: [adaptive_scheduler_set_next_wake] drops the part of the interval
    below one second: an interval and the same interval rounded down to
    whole seconds run alike, and for an interval under 1000 ms the alarm is
    the time of day that was read. *)
Theorem set_next_wake_drops_milliseconds (interval_ms : Z) (w : world)
    (t : rv3028_time) :
  adaptive_scheduler_set_next_wake interval_ms w
  = adaptive_scheduler_set_next_wake (interval_ms - interval_ms mod 1000) w
  /\ (0 <= interval_ms < 1000 ->
      0 <= tm_seconds t <= 59 -> 0 <= tm_minutes t <= 59 ->
      0 <= tm_hours t <= 23 ->
      wakeup_alarm t (interval_ms / 1000)
      = {| al_seconds := tm_seconds t; al_minutes := tm_minutes t;
           al_hours := tm_hours t; al_weekday := tm_weekday t;
           al_date := tm_date t |}).
Proof.
  assert (Hdiv : (interval_ms - interval_ms mod 1000) / 1000
                 = interval_ms / 1000).
  { pose proof (Z.div_mod interval_ms 1000 ltac:(lia)) as Hdm.
    replace (interval_ms - interval_ms mod 1000)
      with (interval_ms / 1000 * 1000) by lia.
    apply Z.div_mul. lia. }
  split.
  - unfold adaptive_scheduler_set_next_wake. rewrite Hdiv. reflexivity.
  - intros Hi Hs Hm Hh.
    rewrite (Z.div_small interval_ms 1000) by lia.
    unfold wakeup_alarm, wakeup_target.
    rewrite u32_small by lia.
    set (target := tm_hours t * 3600 + tm_minutes t * 60 + tm_seconds t + 0).
    assert (Hsec : target mod 60 = tm_seconds t).
    { unfold target.
      replace (tm_hours t * 3600 + tm_minutes t * 60 + tm_seconds t + 0)
        with (tm_seconds t + (tm_hours t * 60 + tm_minutes t) * 60) by lia.
      rewrite Z.mod_add by lia. apply Z.mod_small. lia. }
    assert (Hmin : target / 60 = tm_hours t * 60 + tm_minutes t).
    { unfold target.
      replace (tm_hours t * 3600 + tm_minutes t * 60 + tm_seconds t + 0)
        with (tm_seconds t + (tm_hours t * 60 + tm_minutes t) * 60) by lia.
      rewrite Z.div_add by lia. rewrite Z.div_small by lia. lia. }
    assert (Hhrs : target / 3600 = tm_hours t).
    { unfold target.
      replace (tm_hours t * 3600 + tm_minutes t * 60 + tm_seconds t + 0)
        with (tm_minutes t * 60 + tm_seconds t + tm_hours t * 3600) by lia.
      rewrite Z.div_add by lia. rewrite Z.div_small by lia. lia. }
    rewrite Hsec, Hmin, Hhrs.
    replace ((tm_hours t * 60 + tm_minutes t) mod 60) with (tm_minutes t)
      by (rewrite Z.add_comm, Z.mod_add by lia;
          symmetry; apply Z.mod_small; lia).
    rewrite (Z.mod_small (tm_hours t) 24) by lia.
    rewrite !u8_small by lia. reflexivity.
Qed.

Lemma set_next_wake_drops_milliseconds_witness :
  adaptive_scheduler_set_next_wake 999 before_midnight_bus
  = adaptive_scheduler_set_next_wake (999 - 999 mod 1000) before_midnight_bus
  /\ wakeup_alarm (mkTime 0 58 23 2 15 6 2024) (999 / 1000)
     = mkAlarm 0 58 23 2 15.
Proof.
  destruct (set_next_wake_drops_milliseconds 999 before_midnight_bus
              (mkTime 0 58 23 2 15 6 2024)) as [Hsame Hnow].
  split; [exact Hsame |].
  apply Hnow; cbn; lia.
Defined.
